(** * TDD enforcement hook: a shallow embedding of
      hooks/validators/tdd_enforcer.py and hooks/validators/session_start_tdd.py

    Python values are modelled as follows.
    - [str] is [string]: a sequence of code points below 256.
    - A value produced by [json.load]/[json.loads] is a [json] tree; a dict is
      an association list in insertion order with distinct keys.
    - [pathlib.Path] (POSIX flavour, CPython 3.8 to 3.13) is a record holding
      the root and the list of components that [Path(...)] computes from the
      text it is given.
    - An uncaught exception is a [Raise]; the interpreter then ends the
      process with a traceback on stderr and nothing more on stdout.
    - The working directory, the file system that [Path.resolve] reads and
      the order in which a [set] is iterated are the fields of [Env].
    - The store file is a [StoreFile]: what reading it gives, and whether it
      can be written.  A write that starts is taken to complete. *)

From Stdlib Require Import String Ascii List Bool Arith ZArith Lia.
From Stdlib Require Import DecimalString.
Import ListNotations.
Open Scope string_scope.
Open Scope list_scope.

(** ** Python [str] operations *)

Module Str.

Definition slash : ascii := "/"%char.
Definition dot : ascii := "."%char.

(** [not s] for a str. *)
Definition is_empty (s : string) : bool :=
  match s with EmptyString => true | String _ _ => false end.

(** [s.split(sep)] for a one-character separator. *)
Fixpoint split (sep : ascii) (s : string) : list string :=
  match s with
  | EmptyString => [EmptyString]
  | String c r =>
      if Ascii.eqb c sep then EmptyString :: split sep r
      else match split sep r with
           | h :: t => String c h :: t
           | [] => [String c EmptyString]
           end
  end.

(** [sep.join(l)]. *)
Fixpoint join (sep : string) (l : list string) : string :=
  match l with
  | [] => EmptyString
  | [x] => x
  | x :: r => x ++ sep ++ join sep r
  end.

(** [s.startswith(p)]. *)
Fixpoint startswith (p s : string) : bool :=
  match p, s with
  | EmptyString, _ => true
  | String a p', String b s' => Ascii.eqb a b && startswith p' s'
  | String _ _, EmptyString => false
  end.

(** [p in s] for two strs: substring test. *)
Fixpoint contains (p s : string) : bool :=
  startswith p s ||
  match s with
  | EmptyString => false
  | String _ r => contains p r
  end.

(** [c.lower()] on one code point below 256: A-Z, and the Latin-1 capitals
    U+00C0..U+00DE other than the multiplication sign U+00D7. *)
Definition lower_char (c : ascii) : ascii :=
  let n := nat_of_ascii c in
  if (((65 <=? n) && (n <=? 90))
      || ((192 <=? n) && (n <=? 222) && negb (n =? 215)))%nat
  then ascii_of_nat (n + 32) else c.

(** [s.lower()]. *)
Fixpoint lower (s : string) : string :=
  match s with
  | EmptyString => EmptyString
  | String c r => String (lower_char c) (lower r)
  end.

(** [s.rfind(".")], [None] standing for -1. *)
Fixpoint rfind_dot (s : string) : option nat :=
  match s with
  | EmptyString => None
  | String c r =>
      match rfind_dot r with
      | Some i => Some (S i)
      | None => if Ascii.eqb c dot then Some 0 else None
      end
  end.

(** [s[:n]] and [s[n:]]. *)
Fixpoint take (n : nat) (s : string) : string :=
  match n, s with
  | S n', String c r => String c (take n' r)
  | _, _ => EmptyString
  end.

Fixpoint drop (n : nat) (s : string) : string :=
  match n, s with
  | S n', String _ r => drop n' r
  | _, _ => s
  end.

(** [s.replace(old, new)] for a non-empty [old]: occurrences are replaced
    left to right without overlap.  [skip] counts the characters of a
    replaced occurrence that are still to be passed over. *)
Fixpoint replace_from (old new : string) (skip : nat) (s : string) : string :=
  match s with
  | EmptyString => EmptyString
  | String c r =>
      match skip with
      | S k => replace_from old new k r
      | O =>
          if startswith old s
          then new ++ replace_from old new (String.length old - 1) r
          else String c (replace_from old new 0 r)
      end
  end.

Definition replace (old new s : string) : string := replace_from old new 0 s.

(** Whether a str holds the code point 0. *)
Fixpoint has_nul (s : string) : bool :=
  match s with
  | EmptyString => false
  | String c r => Ascii.eqb c "000"%char || has_nul r
  end.

(** Membership of a str in a list of strs. *)
Definition mem (s : string) (l : list string) : bool :=
  existsb (String.eqb s) l.

End Str.

(** ** [pathlib.PurePosixPath] *)

Module Path.

(** [root] is the empty string, "/" or "//"; [tail] holds the components. *)
Record t := mk { root : string; tail : list string }.

(** [posixpath.splitroot]: exactly two leading slashes are kept as the
    root "//"; one, or three and more, give "/". *)
Definition splitroot (p : string) : string * string :=
  match p with
  | String c1 r1 =>
      if Ascii.eqb c1 Str.slash then
        match r1 with
        | String c2 r2 =>
            if Ascii.eqb c2 Str.slash then
              match r2 with
              | String c3 _ =>
                  if Ascii.eqb c3 Str.slash then ("/", r1) else ("//", r2)
              | EmptyString => ("//", r2)
              end
            else ("/", r1)
        | EmptyString => ("/", r1)
        end
      else (EmptyString, p)
  | EmptyString => (EmptyString, p)
  end.

(** A component is kept when it is neither empty nor ".". *)
Definition keep (x : string) : bool :=
  negb (Str.is_empty x) && negb (String.eqb x ".").

Definition components (rel : string) : list string :=
  filter keep (Str.split Str.slash rel).

(** [Path(s)]. *)
Definition of_string (s : string) : t :=
  let '(r, rel) := splitroot s in mk r (components rel).

(** [str(p)]. *)
Definition to_string (p : t) : string :=
  if Str.is_empty (root p)
  then match tail p with
       | [] => "."
       | _ => Str.join "/" (tail p)
       end
  else root p ++ Str.join "/" (tail p).

(** [p.parts]. *)
Definition parts (p : t) : list string :=
  if Str.is_empty (root p) then tail p else root p :: tail p.

(** [p.name]. *)
Definition name (p : t) : string := last (tail p) EmptyString.

(** The index [i] of the last dot of the name when [0 < i < len(name) - 1]. *)
Definition suffix_index (nm : string) : option nat :=
  match Str.rfind_dot nm with
  | Some i =>
      if ((0 <? i) && (i <? String.length nm - 1))%nat then Some i else None
  | None => None
  end.

(** [p.suffix]. *)
Definition suffix (p : t) : string :=
  match suffix_index (name p) with
  | Some i => Str.drop i (name p)
  | None => EmptyString
  end.

(** [p.stem]. *)
Definition stem (p : t) : string :=
  match suffix_index (name p) with
  | Some i => Str.take i (name p)
  | None => name p
  end.

(** [p.parent]. *)
Definition parent (p : t) : t :=
  match tail p with
  | [] => p
  | _ => mk (root p) (removelast (tail p))
  end.

(** [p / seg]: an absolute segment replaces [p]; a relative one adds its
    components. *)
Definition joinpath (p : t) (seg : string) : t :=
  if Str.startswith "/" seg then of_string seg
  else mk (root p) (tail p ++ components seg).

(** [Path( *args )]. *)
Definition of_parts (args : list string) : t :=
  fold_left joinpath args (mk EmptyString []).

End Path.

(** ** JSON documents and the Python operations the hook applies to them *)

Set Warnings "-register-all".

(** A number is kept as an integer: the hook only ever tests numbers for
    truth and compares them with strs, which no number equals. *)
Inductive json :=
| JNull
| JBool (b : bool)
| JNum (n : Z)
| JStr (s : string)
| JArr (l : list json)
| JObj (kvs : list (string * json)).

Inductive exn :=
| JSONDecodeError | KeyError | TypeError | AttributeError
| ValueError | RuntimeError | UnicodeDecodeError | RecursionError | OSError.

Inductive result (A : Type) :=
| Ok (a : A)
| Raise (e : exn).
Arguments Ok {A} a.
Arguments Raise {A} e.

Definition bind {A B} (r : result A) (k : A -> result B) : result B :=
  match r with
  | Ok a => k a
  | Raise e => Raise e
  end.

Notation "x <- r ;; k" := (bind r (fun x => k))
  (at level 61, r at next level, right associativity).

Module Py.

(** Lookup of a key in a dict. *)
Fixpoint lookup (k : string) (kvs : list (string * json)) : option json :=
  match kvs with
  | [] => None
  | (k', v) :: r => if String.eqb k k' then Some v else lookup k r
  end.

(** Rebinding of a key that the dict holds; its position is kept. *)
Fixpoint rebind (k : string) (v : json) (kvs : list (string * json))
  : list (string * json) :=
  match kvs with
  | [] => []
  | (k', v') :: r =>
      if String.eqb k k' then (k', v) :: r else (k', v') :: rebind k v r
  end.

(** [d.get(k, default)]: only a dict has the method. *)
Definition get (d : json) (k : string) (default : json) : result json :=
  match d with
  | JObj kvs =>
      Ok match lookup k kvs with Some v => v | None => default end
  | _ => Raise AttributeError
  end.

(** [d[k]] for a str [k]. *)
Definition getitem (d : json) (k : string) : result json :=
  match d with
  | JObj kvs =>
      match lookup k kvs with Some v => Ok v | None => Raise KeyError end
  | _ => Raise TypeError
  end.

(** Truth value of a JSON value. *)
Definition truthy (v : json) : bool :=
  match v with
  | JNull => false
  | JBool b => b
  | JNum n => negb (Z.eqb n 0)
  | JStr s => negb (Str.is_empty s)
  | JArr l => match l with [] => false | _ => true end
  | JObj kvs => match kvs with [] => false | _ => true end
  end.

(** [v == s] for a str [s]. *)
Definition eq_str (s : string) (v : json) : bool :=
  match v with
  | JStr s' => String.eqb s s'
  | _ => false
  end.

(** [s in c] for a str [s]: list membership, dict key membership or
    substring test; other values are not iterable. *)
Definition contains (s : string) (c : json) : result bool :=
  match c with
  | JArr l => Ok (existsb (eq_str s) l)
  | JObj kvs => Ok (existsb (fun kv => String.eqb s (fst kv)) kvs)
  | JStr t => Ok (Str.contains s t)
  | _ => Raise TypeError
  end.

(** [c.append(x)]: only a list has the method. *)
Definition append (c : json) (x : json) : result json :=
  match c with
  | JArr l => Ok (JArr (l ++ [x]))
  | _ => Raise AttributeError
  end.

Definition hashable (v : json) : bool :=
  match v with
  | JArr _ | JObj _ => false
  | _ => true
  end.

Fixpoint chars (s : string) : list json :=
  match s with
  | EmptyString => []
  | String c r => JStr (String c EmptyString) :: chars r
  end.

(** [set(c)], as the sequence in which the set is then iterated.  CPython
    iterates a set by hash, so the order is not that of the document:
    [order] is the arrangement the running process makes (see [Env]). *)
Definition set (order : list json -> list json) (c : json)
  : result (list json) :=
  match c with
  | JArr l => if forallb hashable l then Ok (order l) else Raise TypeError
  | JObj kvs => Ok (order (map (fun kv => JStr (fst kv)) kvs))
  | JStr s => Ok (order (chars s))
  | _ => Raise TypeError
  end.

(** [Path(v)]: the argument has to be a str. *)
Definition path (v : json) : result Path.t :=
  match v with
  | JStr s => Ok (Path.of_string s)
  | _ => Raise TypeError
  end.

End Py.


(** ** The environment of one invocation *)

(** [cwd] is the working directory, as the components of its absolute path.
    [realpath] is the file system's canonicalisation of an absolute path
    given by its components: it removes ".." and follows symbolic links,
    and it raises where [Path.resolve] does on that file system
    ([RuntimeError] on a loop of symbolic links).
    [set_order] is the order in which the process iterates a set built
    from the given elements: some arrangement of elements of the list
    that leaves out no str. *)
Record Env := {
  cwd : list string;
  realpath : list string -> result (list string);
  set_order : list json -> list json;
  set_order_sound : forall l x, In x (set_order l) -> In x l;
  set_order_strs : forall l s, In (JStr s) l -> In (JStr s) (set_order l)
}.

(** The environment with the given working directory and file system
    that iterates sets in document order. *)
Definition env_of (dir : list string)
  (rp : list string -> result (list string)) : Env :=
  {| cwd := dir;
     realpath := rp;
     set_order := fun l => l;
     set_order_sound := fun l x H => H;
     set_order_strs := fun l s H => H |}.

(** Input on which [json.load] or [json.loads] raises something other
    than [JSONDecodeError]: bytes that are not text, nesting beyond the
    recursion limit, an integer literal beyond the digit limit. *)
Inductive fault := NotText | TooDeep | TooLongInt.

Definition fault_exn (x : fault) : exn :=
  match x with
  | NotText => UnicodeDecodeError
  | TooDeep => RecursionError
  | TooLongInt => ValueError
  end.

(** The file at [STATE_FILE].  [Unreadable]: the file exists and reading it
    raises [IOError].  [Corrupt]: its text is rejected with
    [JSONDecodeError]; an empty file is of this kind.  [Broken x]: reading
    or parsing it raises the exception of [x].  [Unwritable f]: the file
    reads as [f] does, and [mkdir] or the opening of the file for writing
    raises [OSError] (for a directory at the path of the store:
    [Unwritable Unreadable]). *)
Inductive StoreFile :=
| Absent
| Unreadable
| Corrupt
| Broken (x : fault)
| Doc (v : json)
| Unwritable (f : StoreFile).

(** What [json.load(sys.stdin)] meets.  [NotJson]: text that it rejects
    with [JSONDecodeError]. *)
Inductive Stdin :=
| NotJson
| Unparsed (x : fault)
| Json (v : json).

(** ** hooks/validators/tdd_enforcer.py *)

Definition KEY : string := "test_files_modified".

Definition default_state : json :=
  JObj [(KEY, JArr []); ("session_id", JNull)].

Fixpoint load_state (f : StoreFile) : result json :=
  match f with
  | Doc v => Ok v
  | Absent | Unreadable | Corrupt => Ok default_state
  | Broken x => Raise (fault_exn x)
  | Unwritable f' => load_state f'
  end.

Definition writable (f : StoreFile) : bool :=
  match f with
  | Unwritable _ => false
  | _ => true
  end.

(** The store file after [save_state(state)], or the [OSError]. *)
Definition save_state (state : json) (f : StoreFile) : result StoreFile :=
  if writable f then Ok (Doc state) else Raise OSError.

Definition test_patterns : list string :=
  [".test."; ".spec."; "_test."; "_spec."; "test_"; "spec_"].

Definition is_test_file (file_path : string) : bool :=
  let path := Path.of_string file_path in
  let name := Str.lower (Path.name path) in
  if Str.mem "__tests__" (Path.parts path) then true
  else if Str.mem "tests" (Path.parts path) then true
  else existsb (fun pattern => Str.contains pattern name) test_patterns.

Definition extensions : list string :=
  [".ts"; ".tsx"; ".js"; ".jsx"; ".mjs"; ".cjs"].

Definition config_patterns : list string :=
  ["config."; ".config."; "rc."; ".d.ts";
   "vite.config"; "vitest.config"; "jest.config";
   "tsconfig"; "eslint"; "prettier"].

Definition is_impl_file (file_path : string) : bool :=
  let path := Path.of_string file_path in
  if negb (Str.mem (Path.suffix path) extensions) then false
  else if is_test_file file_path then false
  else
    let name := Str.lower (Path.name path) in
    negb (existsb (fun pattern => Str.contains pattern name) config_patterns).

(** [parts.index(x)] and the assignment [parts[i] = y] at that index. *)
Fixpoint replace_first (x y : string) (l : list string) : list string :=
  match l with
  | [] => []
  | h :: r => if String.eqb x h then y :: r else h :: replace_first x y r
  end.

Definition find_matching_tests (impl_path : string) : list string :=
  let path := Path.of_string impl_path in
  let stem := Path.stem path in
  let suffix := Path.suffix path in
  let parent := Path.parent path in
  let same_dir :=
    [ Path.joinpath parent (stem ++ ".test" ++ suffix);
      Path.joinpath parent (stem ++ ".spec" ++ suffix);
      Path.joinpath parent (stem ++ "_test" ++ suffix);
      Path.joinpath parent (stem ++ "_spec" ++ suffix) ] in
  let tests_dir :=
    [ Path.joinpath (Path.joinpath parent "__tests__") (stem ++ ".test" ++ suffix);
      Path.joinpath (Path.joinpath parent "__tests__") (stem ++ ".spec" ++ suffix);
      Path.joinpath (Path.joinpath parent "__tests__") (stem ++ suffix) ] in
  let mirrored :=
    if Str.mem "src" (Path.parts parent) then
      let parts := replace_first "src" "tests" (Path.parts parent) in
      let tests_parent := Path.of_parts parts in
      [ Path.joinpath tests_parent (stem ++ ".test" ++ suffix);
        Path.joinpath tests_parent (stem ++ ".spec" ++ suffix) ]
    else [] in
  map Path.to_string (same_dir ++ tests_dir ++ mirrored).

(** [str(Path(file_path).resolve())].  The system call on a component
    that holds the code point 0 raises [ValueError]; otherwise a relative
    path is taken from the working directory and resolved by the file
    system, and the result is absolute, with the single root "/". *)
Definition normalize_path (env : Env) (file_path : string) : result string :=
  let p := Path.of_string file_path in
  if existsb Str.has_nul (Path.tail p) then Raise ValueError
  else
    let abs :=
      if Str.is_empty (Path.root p) then cwd env ++ Path.tail p
      else Path.tail p in
    r <- realpath env abs ;;
    Ok (Path.to_string (Path.mk "/" r)).

(** [state["test_files_modified"]], the membership test and the [append]
    of lines 152-153.  The result is the state handed to [save_state], or
    [None] when the path is already listed and nothing is saved. *)
Definition record_test (state : json) (normalized_path : string)
  : result (option json) :=
  files <- Py.getitem state KEY ;;
  listed <- Py.contains normalized_path files ;;
  if negb listed then
    files' <- Py.append files (JStr normalized_path) ;;
    match state with
    | JObj kvs => Ok (Some (JObj (Py.rebind KEY files' kvs)))
    | _ => Ok (Some state)
    end
  else Ok None.

(** The inner loop of lines 174-177 for one candidate. *)
Fixpoint name_matches (test_path : string) (modified_tests : list json)
  : result bool :=
  match modified_tests with
  | [] => Ok false
  | modified :: rest =>
      p <- Py.path modified ;;
      if String.eqb (Str.lower (Path.name p))
                    (Str.lower (Path.name (Path.of_string test_path)))
      then Ok true
      else name_matches test_path rest
  end.

(** The loop of lines 168-177: [Ok true] when it reaches a [return]. *)
Fixpoint any_matching (env : Env) (possible_tests : list string)
  (modified_tests : list json) : result bool :=
  match possible_tests with
  | [] => Ok false
  | test_path :: rest =>
      normalized_test <- normalize_path env test_path ;;
      if existsb (Py.eq_str normalized_test) modified_tests then Ok true
      else
        found <- name_matches test_path modified_tests ;;
        if found then Ok true else any_matching env rest modified_tests
  end.

Definition nl : string := String "010"%char EmptyString.

Definition block_reason (suggested_test : string) : string :=
  "TDD Violation: Write test first!" ++ nl ++ nl ++
  "You're trying to write implementation code without a test." ++ nl ++ nl ++
  "Suggested test file: " ++ suggested_test ++ nl ++ nl ++
  "Write and save the test file first, then you can write the implementation.".

Definition allow : json := JObj [("decision", JStr "allow")].

Definition block (reason : string) : json :=
  JObj [("decision", JStr "block"); ("reason", JStr reason)].

(** Line 180. *)
Definition suggested_test (file_path : string) (possible_tests : list string)
  : string :=
  match possible_tests with
  | first :: _ => first
  | [] => Str.replace ".ts" ".test.ts" file_path
  end.

(** What one run of a hook leaves behind: the documents it printed, the
    exception that ended it if one did, and the store file. *)
Record Outcome := {
  stdout : list json;
  raised : option exn;
  store : StoreFile
}.

Definition reply (v : json) (f : StoreFile) : Outcome :=
  {| stdout := [v]; raised := None; store := f |}.

Definition crash (e : exn) (f : StoreFile) : Outcome :=
  {| stdout := []; raised := Some e; store := f |}.

(** Lines 164-185, for a [file_path] that is an implementation file. *)
Definition check_impl (env : Env) (state : json) (file_path : string)
  : result json :=
  let possible_tests := find_matching_tests file_path in
  files <- Py.get state KEY (JArr []) ;;
  modified_tests <- Py.set (set_order env) files ;;
  found <- any_matching env possible_tests modified_tests ;;
  if found then Ok allow
  else Ok (block (block_reason (suggested_test file_path possible_tests))).

(** Lines 139-140. *)
Definition file_path_of (input_data : json) : result json :=
  tool_input <- Py.get input_data "tool_input" (JObj []) ;;
  Py.get tool_input "file_path" (JStr EmptyString).

(** Lines 150-156, with the state loaded and the path normalized. *)
Definition write_test (state : json) (normalized_path : string)
  (f : StoreFile) : Outcome :=
  match record_test state normalized_path with
  | Raise e => crash e f
  | Ok (Some state') =>
      match save_state state' f with
      | Raise e => crash e f
      | Ok f' => reply allow f'
      end
  | Ok None => reply allow f
  end.

Definition main (env : Env) (stdin : Stdin) (f : StoreFile) : Outcome :=
  match stdin with
  | NotJson => reply allow f
  | Unparsed x => crash (fault_exn x) f
  | Json input_data =>
      match file_path_of input_data with
      | Raise e => crash e f
      | Ok fp =>
          if negb (Py.truthy fp) then reply allow f
          else
            match load_state f with
            | Raise e => crash e f
            | Ok state =>
                match fp with
                | JStr file_path =>
                    match normalize_path env file_path with
                    | Raise e => crash e f
                    | Ok normalized_path =>
                        if is_test_file file_path then
                          write_test state normalized_path f
                        else if negb (is_impl_file file_path) then
                          reply allow f
                        else
                          match check_impl env state file_path with
                          | Raise e => crash e f
                          | Ok response => reply response f
                          end
                    end
                | _ => crash TypeError f
                end
            end
      end
  end.

(** ** hooks/validators/session_start_tdd.py *)

Module SessionStart.

Definition initial_state : json :=
  JObj [(KEY, JArr []); ("session_id", JNull); ("started_at", JNull)].

(** Lines 20 and 28 are [save_state]'s two steps; nothing is printed
    when they raise. *)
Definition main (f : StoreFile) : Outcome :=
  match save_state initial_state f with
  | Raise e => crash e f
  | Ok f' =>
      reply (JObj [("status", JStr "reset");
                   ("message", JStr "TDD session state cleared")]) f'
  end.

End SessionStart.

(** ** [json.dumps] and the text on stdout *)

Module Dumps.

Definition dq : string := String "034"%char EmptyString.
Definition bs : string := String "092"%char EmptyString.

Definition hex_digit (n : nat) : string :=
  String.substring n 1 "0123456789abcdef".

(** The escape of one code point under [ensure_ascii=True]. *)
Definition escape_char (c : ascii) : string :=
  let n := nat_of_ascii c in
  if (n =? 34)%nat then bs ++ dq
  else if (n =? 92)%nat then bs ++ bs
  else if (n =? 10)%nat then bs ++ "n"
  else if (n =? 13)%nat then bs ++ "r"
  else if (n =? 9)%nat then bs ++ "t"
  else if (n =? 8)%nat then bs ++ "b"
  else if (n =? 12)%nat then bs ++ "f"
  else if ((32 <=? n) && (n <=? 126))%nat then String c EmptyString
  else bs ++ "u00" ++ hex_digit (n / 16) ++ hex_digit (n mod 16).

Fixpoint escape (s : string) : string :=
  match s with
  | EmptyString => EmptyString
  | String c r => escape_char c ++ escape r
  end.

Definition quote (s : string) : string := dq ++ escape s ++ dq.

Definition of_Z (n : Z) : string := NilZero.string_of_int (Z.to_int n).

(** [json.dumps(v)] with the default separators ", " and ": ". *)
Fixpoint dumps (v : json) : string :=
  match v with
  | JNull => "null"
  | JBool true => "true"
  | JBool false => "false"
  | JNum n => of_Z n
  | JStr s => quote s
  | JArr l => "[" ++ Str.join ", " (map dumps l) ++ "]"
  | JObj kvs =>
      "{" ++ Str.join ", "
               (map (fun kv => match kv with
                               | (k, x) => (quote k ++ ": " ++ dumps x)%string
                               end) kvs) ++ "}"
  end.

End Dumps.

(** [print(json.dumps(v))] for each printed document, in order. *)
Definition stdout_text (o : Outcome) : string :=
  String.concat EmptyString (map (fun v => (Dumps.dumps v ++ nl)%string) (stdout o)).


(** ** Notions the properties are stated with *)

(** The request that names [file_path] and nothing else. *)
Definition request (file_path : string) : json :=
  JObj [("tool_input", JObj [("file_path", JStr file_path)])].

(** The role a path has by the order of the tests in [main]: the test
    check comes first, then the checks of [is_impl_file] in their order. *)
Inductive FileRole := Test | Implementation | Config | Ignored.

Definition classify (file_path : string) : FileRole :=
  if is_test_file file_path then Test
  else if is_impl_file file_path then Implementation
  else if negb (Str.mem (Path.suffix (Path.of_string file_path)) extensions)
  then Ignored
  else Config.

Fixpoint as_strs (l : list json) : option (list string) :=
  match l with
  | [] => Some []
  | JStr s :: r =>
      match as_strs r with Some ss => Some (s :: ss) | None => None end
  | _ :: _ => None
  end.

(** The recorded test paths of a store whose state loads and has the
    expected shape: a dict that binds [KEY] to a list of strs. *)
Definition recorded (f : StoreFile) : option (list string) :=
  match load_state f with
  | Ok (JObj kvs) =>
      match Py.lookup KEY kvs with
      | Some (JArr l) => as_strs l
      | _ => None
      end
  | _ => None
  end.

(** Whether [Path(s).resolve()] returns in the environment. *)
Definition resolvable (env : Env) (s : string) : bool :=
  match normalize_path env s with
  | Ok _ => true
  | Raise _ => false
  end.

(** A session: invocations of the enforcer one after another on one store. *)
Definition run_all (invocations : list (Env * Stdin)) (f : StoreFile)
  : StoreFile :=
  fold_left (fun f' inv => store (main (fst inv) (snd inv) f')) invocations f.


(** A candidate matches a recorded path exactly after normalisation, or
    by file name without regard to case (lines 170 and 175). *)
Definition matches (env : Env) (test_path recorded_path : string) : Prop :=
  normalize_path env test_path = Ok recorded_path \/
  Str.lower (Path.name (Path.of_string recorded_path)) =
  Str.lower (Path.name (Path.of_string test_path)).

(** The infixes of the four same-directory candidates. *)
Definition infixes : list string := [".test"; ".spec"; "_test"; "_spec"].

(** Follows the specification's words for the second group of candidates:
    the [__tests__] subdirectory next to the file holds the same infix
    variants as the file's own directory. *)
Definition spec_tests_dir (impl_path : string) : list string :=
  let path := Path.of_string impl_path in
  map (fun i =>
         Path.to_string
           (Path.joinpath (Path.joinpath (Path.parent path) "__tests__")
              (Path.stem path ++ i ++ Path.suffix path)%string))
      infixes.

(** ** Two invocations on one store *)

Module Race.

(** An invocation for a test file touches the store three times:
    [load_state] at line 147 reads it; [write_text] at line 34 first
    opens it, which empties it, and then writes the document.  A process
    is at one of these points, or has ended. *)
Inductive proc :=
| Start (env : Env) (file_path : string)
| Loaded (env : Env) (file_path : string) (state : json)
| Writing (state : json)
| Finished (raised : option exn).

Definition step (p : proc) (f : StoreFile) : proc * StoreFile :=
  match p with
  | Start env file_path =>
      match load_state f with
      | Raise e => (Finished (Some e), f)
      | Ok state => (Loaded env file_path state, f)
      end
  | Loaded env file_path state =>
      match normalize_path env file_path with
      | Raise e => (Finished (Some e), f)
      | Ok normalized_path =>
          match record_test state normalized_path with
          | Raise e => (Finished (Some e), f)
          | Ok None => (Finished None, f)
          | Ok (Some state') =>
              if writable f then (Writing state', Corrupt)
              else (Finished (Some OSError), f)
          end
      end
  | Writing state' => (Finished None, Doc state')
  | Finished _ => (p, f)
  end.

Inductive turn := First | Second.

(** The store after the two processes have taken their steps in the order
    of the schedule. *)
Fixpoint run (schedule : list turn) (p1 p2 : proc) (f : StoreFile)
  : StoreFile :=
  match schedule with
  | [] => f
  | First :: rest => let '(p1', f') := step p1 f in run rest p1' p2 f'
  | Second :: rest => let '(p2', f') := step p2 f in run rest p1 p2' f'
  end.




(** The second invocation loads while the first has emptied the file and
    not yet written it. *)
Definition in_the_gap : list turn :=
  [First; First; Second; First; Second; Second].

End Race.

(** ** Two working directories on one file system *)

Module Cwd.

Fixpoint list_eqb (a b : list string) : bool :=
  match a, b with
  | [], [] => true
  | x :: a', y :: b' => String.eqb x y && list_eqb a' b'
  | _, _ => false
  end.

(** Canonicalisation where no component is a link: ".." removes the
    component before it. *)
Definition push (acc : list string) (c : string) : list string :=
  if String.eqb c ".." then removelast acc else acc ++ [c].

Definition lexical (abs : list string) : list string := fold_left push abs [].

(** A file system without symbolic links. *)
Definition plain (abs : list string) : result (list string) :=
  Ok (lexical abs).

(** A file system whose one symbolic link is /proj/a/math.test.ts, a link
    to the file /shared/checks.ts. *)
Definition linked (abs : list string) : result (list string) :=
  let p := lexical abs in
  if list_eqb p ["proj"; "a"; "math.test.ts"] then Ok ["shared"; "checks.ts"]
  else Ok p.

(** A file system on which /work/src/loop.test.ts is a symbolic link to
    itself. *)
Definition looping (abs : list string) : result (list string) :=
  let p := lexical abs in
  if list_eqb p ["work"; "src"; "loop.test.ts"] then Raise RuntimeError
  else Ok p.

Definition in_a : Env := env_of ["proj"; "a"] linked.
Definition in_b : Env := env_of ["proj"; "b"] linked.

End Cwd.

(** An environment for the examples: working directory /work on a file
    system without links. *)
Definition work : Env := env_of ["work"] Cwd.plain.

(** The allow document written without any space, and the line that
    [print(json.dumps(...))] writes for it. *)
Definition compact_allow : string :=
  "{" ++ Dumps.dq ++ "decision" ++ Dumps.dq ++ ":" ++
  Dumps.dq ++ "allow" ++ Dumps.dq ++ "}".

Definition allow_line : string :=
  "{" ++ Dumps.dq ++ "decision" ++ Dumps.dq ++ ": " ++
  Dumps.dq ++ "allow" ++ Dumps.dq ++ "}" ++ nl.

(** A str with the code point 0 in it. *)
Definition nul : string := String "000"%char EmptyString.

(** A str of printable ASCII: every code point from 32 to 126. *)
Fixpoint printable (s : string) : bool :=
  match s with
  | EmptyString => true
  | String c r =>
      ((32 <=? nat_of_ascii c) && (nat_of_ascii c <=? 126))%nat && printable r
  end.


(** The exception, if any, that the input alone makes a hook end with:
    what [json.load] raises apart from [JSONDecodeError],
    [AttributeError] from the two [.get] calls of lines 139-140 and
    [TypeError] from [Path(file_path)] for a truthy value that is no str. *)
Definition request_error (stdin : Stdin) : option exn :=
  match stdin with
  | NotJson => None
  | Unparsed x => Some (fault_exn x)
  | Json d =>
      match file_path_of d with
      | Raise e => Some e
      | Ok v =>
          if negb (Py.truthy v) then None
          else match v with JStr _ => None | _ => Some TypeError end
      end
  end.

(** Insertion of a path into a list kept without repetition (lines
    152-153), and the normalized test path, if any, that an invocation
    asks to record and can resolve. *)
Definition record_path (l : list string) (np : string) : list string :=
  if Str.mem np l then l else l ++ [np].

Definition requested_test (inv : Env * Stdin) : option string :=
  match snd inv with
  | Json d =>
      match file_path_of d with
      | Ok (JStr fp) =>
          if is_test_file fp then
            match normalize_path (fst inv) fp with
            | Ok np => Some np
            | Raise _ => None
            end
          else None
      | _ => None
      end
  | _ => None
  end.

Fixpoint requested_tests (invocations : list (Env * Stdin)) : list string :=
  match invocations with
  | [] => []
  | inv :: rest =>
      match requested_test inv with
      | Some np => np :: requested_tests rest
      | None => requested_tests rest
      end
  end.

(** ** hooks/validators/storybook_validator.py *)

Module Storybook.

(** [c.isupper()] for one code point below 256: A-Z and the Latin-1
    capitals U+00C0..U+00DE other than U+00D7. *)
Definition isupper_char (c : ascii) : bool :=
  let n := nat_of_ascii c in
  (((65 <=? n) && (n <=? 90))
   || ((192 <=? n) && (n <=? 222) && negb (n =? 215)))%nat.

Definition skip_patterns : list string :=
  [".test."; ".spec."; ".stories."; "index."; "types."; ".d."].

Definition skip_dirs : list string :=
  ["hooks"; "utils"; "lib"; "types"; "api"; "services"; "providers"].

Definition component_dirs : list string :=
  ["components"; "atoms"; "molecules"; "organisms"; "features"; "ui"].

(** [None] stands for the [IndexError] that [path.stem[0]] raises on an
    empty stem. *)
Definition is_component_file (file_path : string) : option bool :=
  let path := Path.of_string file_path in
  if negb (Str.mem (Path.suffix path) [".tsx"; ".jsx"]) then Some false
  else
    let name := Str.lower (Path.name path) in
    if existsb (fun pattern => Str.contains pattern name) skip_patterns
    then Some false
    else if existsb (fun d => Str.mem d (Path.parts path)) skip_dirs
    then Some false
    else if existsb (fun d => Str.mem d (Path.parts path)) component_dirs
    then Some true
    else match Path.stem path with
         | String c _ => Some (isupper_char c)
         | EmptyString => None
         end.

(** The places where a story is looked for, in order. *)
Definition story_patterns (component_path : string) : list Path.t :=
  let path := Path.of_string component_path in
  let stem := Path.stem path in
  let parent := Path.parent path in
  let suffix := Path.suffix path in
  [ Path.joinpath parent (stem ++ ".stories" ++ suffix);
    Path.joinpath parent (stem ++ ".stories.tsx");
    Path.joinpath parent (stem ++ ".stories.ts");
    Path.joinpath (Path.joinpath parent "__stories__")
                  (stem ++ ".stories" ++ suffix);
    Path.joinpath (Path.joinpath parent "stories")
                  (stem ++ ".stories" ++ suffix) ].

(** The loop of lines 69-73.  [path_exists] is [Path.exists] on the file
    system of the invocation; it raises the [OSError]s that [Path.exists]
    lets through (a name too long, a directory that may not be searched). *)
Fixpoint first_existing (path_exists : Path.t -> result bool)
  (story_paths : list Path.t) : result (option Path.t) :=
  match story_paths with
  | [] => Ok None
  | story_path :: rest =>
      found <- path_exists story_path ;;
      if found then Ok (Some story_path)
      else first_existing path_exists rest
  end.

Definition find_story_file (path_exists : Path.t -> result bool)
  (component_path : string) : result (option Path.t) :=
  first_existing path_exists (story_patterns component_path).

Definition reason (suggested_story : string) : string :=
  "UI Component without Storybook story." ++ nl ++ nl ++
  "Consider creating: " ++ suggested_story ++ nl ++ nl ++
  "Stories help document component variants and enable visual testing.".

(** The end of one run: the one document printed, or the exception. *)
Inductive outcome :=
| Prints (v : json)
| Raises (e : exn)
| RaisesIndexError.

Definition main (path_exists : Path.t -> result bool) (stdin : Stdin)
  : outcome :=
  match stdin with
  | NotJson => Prints allow
  | Unparsed x => Raises (fault_exn x)
  | Json input_data =>
      match file_path_of input_data with
      | Raise e => Raises e
      | Ok fp =>
          if negb (Py.truthy fp) then Prints allow
          else
            match fp with
            | JStr file_path =>
                match is_component_file file_path with
                | None => RaisesIndexError
                | Some false => Prints allow
                | Some true =>
                    match find_story_file path_exists file_path with
                    | Raise e => Raises e
                    | Ok (Some _) => Prints allow
                    | Ok None =>
                        let path := Path.of_string file_path in
                        let suggested_story :=
                          Path.joinpath (Path.parent path)
                            (Path.stem path ++ ".stories.tsx") in
                        Prints (JObj [("decision", JStr "allow");
                                      ("reason",
                                       JStr (reason
                                               (Path.to_string suggested_story)))])
                    end
                end
            | _ => Raises TypeError
            end
      end
  end.

End Storybook.

(** ** The error excerpts of tsc_validator.py and oxlint_validator.py *)

Module Excerpt.

(** [c.isspace()] for one code point below 256, which is what [strip]
    removes. *)
Definition is_space (c : ascii) : bool :=
  let n := nat_of_ascii c in
  (((9 <=? n) && (n <=? 13)) || ((28 <=? n) && (n <=? 32))
   || (n =? 133) || (n =? 160))%nat.

Fixpoint lstrip (s : string) : string :=
  match s with
  | EmptyString => EmptyString
  | String c r => if is_space c then lstrip r else s
  end.

Fixpoint rstrip (s : string) : string :=
  match s with
  | EmptyString => EmptyString
  | String c r =>
      match rstrip r with
      | EmptyString => if is_space c then EmptyString else String c EmptyString
      | r' => String c r'
      end
  end.

(** [s.strip()]. *)
Definition strip (s : string) : string := lstrip (rstrip s).

Definition newline : ascii := "010"%char.

(** tsc_validator.py, lines 95-102: the lines that name the file, each
    with the indented or blank lines that follow it. *)
Fixpoint tsc_relevant (file_name file_path : string) (in_relevant_error : bool)
  (lines : list string) : list string :=
  match lines with
  | [] => []
  | line :: rest =>
      if Str.contains file_name line || Str.contains file_path line
      then line :: tsc_relevant file_name file_path true rest
      else if in_relevant_error &&
              (Str.startswith " " line || Str.is_empty (strip line))
      then line :: tsc_relevant file_name file_path in_relevant_error rest
      else tsc_relevant file_name file_path false rest
  end.

(** tsc_validator.py, [extract_errors]. *)
Definition tsc_extract_errors (output file_path : string) : string :=
  if Str.is_empty output then "Type errors found"
  else
    let lines := Str.split newline output in
    let file_name := Path.name (Path.of_string file_path) in
    let relevant_lines := tsc_relevant file_name file_path false lines in
    let relevant_lines :=
      match relevant_lines with
      | [] => firstn 5 (filter (Str.contains "error TS") lines)
      | _ => relevant_lines
      end in
    match relevant_lines with
    | [] => Str.take 500 output
    | _ => Str.join nl (firstn 10 relevant_lines)
    end.

(** The cross mark U+00D7.  The warning sign U+26A0 that line 92 also
    looks for lies outside the code points of the model, so no line of
    the model starts with it. *)
Definition cross : string := String "215"%char EmptyString.

(** oxlint_validator.py, lines 86-93. *)
Definition oxlint_relevant (line : string) : bool :=
  if Str.is_empty (strip line) then false
  else if Str.contains "error" (Str.lower line)
          || Str.contains "warning" (Str.lower line) then true
  else Str.startswith cross (strip line).

(** oxlint_validator.py, [extract_errors]. *)
Definition oxlint_extract_errors (output file_path : string) : string :=
  if Str.is_empty output then "Lint errors found"
  else
    let lines := Str.split newline output in
    let relevant_lines := filter oxlint_relevant lines in
    match relevant_lines with
    | [] => Str.take 500 output
    | _ => Str.join nl (firstn 10 relevant_lines)
    end.

(** The occurrences of a character in a str, and its absence. *)
Fixpoint count (ch : ascii) (s : string) : nat :=
  match s with
  | EmptyString => 0
  | String c r => (if Ascii.eqb c ch then 1 else 0) + count ch r
  end.

Fixpoint lacks (ch : ascii) (s : string) : bool :=
  match s with
  | EmptyString => true
  | String c r => negb (Ascii.eqb c ch) && lacks ch r
  end.

End Excerpt.

(** ** Auxiliary notions of the proofs *)

(** A str without "/". *)
Fixpoint noslash (s : string) : bool :=
  match s with
  | EmptyString => true
  | String c r => negb (Ascii.eqb c Str.slash) && noslash r
  end.

(** A str that [Path] reads as exactly one component. *)
Definition simple (c : string) : Prop := noslash c = true /\ Path.keep c = true.

(** The roots [Path] produces. *)
Definition is_root (r : string) : Prop := r = EmptyString \/ r = "/" \/ r = "//".

(** A file system on which resolution keeps the last component of a path
    that does not end in "..", as one without symbolic links does. *)
Definition name_preserving (env : Env) : Prop :=
  Forall simple (cwd env) /\
  forall (abs : list string) (x : string),
    Forall simple (abs ++ [x]) -> x <> ".." ->
    exists pre, realpath env (abs ++ [x]) = Ok (pre ++ [x]) /\ Forall simple pre.

(** The test of line 175, and the tests of lines 170 and 175 for a
    candidate that resolves, on a set of strs. *)
Definition same_name (test_path modified : string) : bool :=
  String.eqb (Str.lower (Path.name (Path.of_string modified)))
             (Str.lower (Path.name (Path.of_string test_path))).

Definition candidate_matches (env : Env) (ss : list string) (test_path : string)
  : bool :=
  match normalize_path env test_path with
  | Ok normalized_test =>
      Str.mem normalized_test ss || existsb (same_name test_path) ss
  | Raise _ => false
  end.

(** The loop of lines 168-177 on a set of strs. *)
Fixpoint scan (env : Env) (ss : list string) (possible_tests : list string)
  : result bool :=
  match possible_tests with
  | [] => Ok false
  | test_path :: rest =>
      normalized_test <- normalize_path env test_path ;;
      if Str.mem normalized_test ss || existsb (same_name test_path) ss
      then Ok true
      else scan env ss rest
  end.

(** A sequence of values that holds the strs of [ss] and nothing else. *)
Definition strs_of (ss : list string) (values : list json) : Prop :=
  (forall v, In v values -> exists s, v = JStr s /\ In s ss) /\
  (forall s, In s ss -> In (JStr s) values).

(** A store, and what a process holds, that are well-shaped and list
    only paths of [P]. *)
Definition holds_only (P : string -> Prop) (f : StoreFile) : Prop :=
  exists l, recorded f = Some l /\ forall x, In x l -> P x.

Definition proc_holds_only (P : string -> Prop) (p : Race.proc) : Prop :=
  match p with
  | Race.Start env fp => forall np, normalize_path env fp = Ok np -> P np
  | Race.Loaded env fp state =>
      holds_only P (Doc state) /\
      forall np, normalize_path env fp = Ok np -> P np
  | Race.Writing state => holds_only P (Doc state)
  | Race.Finished _ => True
  end.

(** Whether every [Path.resolve] the invocation reaches returns: the one
    of line 148 for the requested path and, for an implementation path,
    those of line 169 for its candidates. *)
Definition paths_resolve (env : Env) (stdin : Stdin) : bool :=
  match stdin with
  | Json d =>
      match file_path_of d with
      | Ok (JStr fp) =>
          Str.is_empty fp ||
          (resolvable env fp &&
           (negb (is_impl_file fp) ||
            forallb (resolvable env) (find_matching_tests fp)))
      | _ => true
      end
  | _ => true
  end.


(** ** Facts about strs and paths *)

Lemma split_noslash (s : string) :
  Forall (fun c => noslash c = true) (Str.split Str.slash s).
Proof.
  induction s as [|c r IH]; simpl.
  - constructor; [reflexivity | constructor].
  - destruct (Ascii.eqb c Str.slash) eqn:E.
    + constructor; [reflexivity | exact IH].
    + destruct (Str.split Str.slash r) as [|h t].
      * constructor; [simpl; rewrite E; reflexivity | constructor].
      * inversion IH; subst.
        constructor; [simpl; rewrite E; assumption | assumption].
Qed.

Lemma noslash_split (s : string) :
  noslash s = true -> Str.split Str.slash s = [s].
Proof.
  induction s as [|c r IH]; simpl; intros H; [reflexivity|].
  apply andb_true_iff in H as [Hc Hr].
  apply negb_true_iff in Hc. rewrite Hc, (IH Hr). reflexivity.
Qed.

Lemma components_noslash (rel : string) :
  Forall (fun c => noslash c = true /\ Path.keep c = true) (Path.components rel).
Proof.
  unfold Path.components.
  pose proof (split_noslash rel) as H.
  induction H as [|x l Hx Hl IH]; simpl; [constructor|].
  destruct (Path.keep x) eqn:K; [constructor; auto | exact IH].
Qed.

Lemma components_simple (c : string) :
  noslash c = true -> Path.keep c = true -> Path.components c = [c].
Proof.
  intros H K. unfold Path.components. rewrite (noslash_split _ H).
  simpl. rewrite K. reflexivity.
Qed.

Lemma noslash_startswith (c : string) :
  noslash c = true -> Str.startswith "/" c = false.
Proof.
  destruct c as [|a r]; [reflexivity|].
  intros H. apply andb_true_iff in H as [Ha _].
  apply negb_true_iff in Ha.
  change (Str.startswith "/" (String a r))
    with (Ascii.eqb Str.slash a && true).
  rewrite Ascii.eqb_sym, Ha. reflexivity.
Qed.

Lemma joinpath_simple (p : Path.t) (c : string) :
  noslash c = true -> Path.keep c = true ->
  Path.joinpath p c = Path.mk (Path.root p) (Path.tail p ++ [c]).
Proof.
  intros H K. unfold Path.joinpath.
  rewrite (noslash_startswith _ H), (components_simple _ H K). reflexivity.
Qed.

Lemma of_string_root (s : string) : is_root (Path.root (Path.of_string s)).
Proof.
  unfold Path.of_string, Path.splitroot, is_root.
  destruct s as [|c1 r1]; simpl; auto.
  destruct (Ascii.eqb c1 Str.slash); simpl; auto.
  destruct r1 as [|c2 r2]; simpl; auto.
  destruct (Ascii.eqb c2 Str.slash); simpl; auto.
  destruct r2 as [|c3 r3]; simpl; auto.
  destruct (Ascii.eqb c3 Str.slash); simpl; auto.
Qed.

Lemma of_string_tail (s : string) : Forall simple (Path.tail (Path.of_string s)).
Proof.
  unfold Path.of_string.
  destruct (Path.splitroot s) as [r rel]. simpl.
  apply components_noslash.
Qed.

Lemma Forall_removelast {A} (P : A -> Prop) (l : list A) :
  Forall P l -> Forall P (removelast l).
Proof.
  induction 1 as [|x l Hx Hl IH]; simpl; [constructor|].
  destruct l; [constructor | constructor; assumption].
Qed.

Lemma Forall_last {A} (P : A -> Prop) (l : list A) (d : A) :
  Forall P l -> l <> [] -> P (last l d).
Proof.
  induction 1 as [|x l Hx Hl IH]; intros Hne; [congruence|].
  simpl. destruct l; [assumption | apply IH; discriminate].
Qed.

Lemma parent_root (p : Path.t) : Path.root (Path.parent p) = Path.root p.
Proof. destruct p as [r [|c t]]; reflexivity. Qed.

Lemma parent_tail (p : Path.t) :
  Path.tail (Path.parent p) = removelast (Path.tail p).
Proof. destruct p as [r [|c t]]; reflexivity. Qed.

Lemma noslash_app (a b : string) :
  noslash (a ++ b) = noslash a && noslash b.
Proof.
  induction a as [|c r IH]; simpl; [reflexivity|].
  rewrite IH, andb_assoc. reflexivity.
Qed.

Lemma noslash_take (n : nat) (s : string) :
  noslash s = true -> noslash (Str.take n s) = true.
Proof.
  revert s; induction n as [|n IH]; intros [|c r]; simpl; auto.
  intros H. apply andb_true_iff in H as [Hc Hr].
  rewrite Hc, (IH _ Hr). reflexivity.
Qed.

Lemma noslash_drop (n : nat) (s : string) :
  noslash s = true -> noslash (Str.drop n s) = true.
Proof.
  revert s; induction n as [|n IH]; intros [|c r]; simpl; auto.
  intros H. apply andb_true_iff in H as [_ Hr]. auto.
Qed.

Lemma take_drop (n : nat) (s : string) : (Str.take n s ++ Str.drop n s)%string = s.
Proof.
  revert s; induction n as [|n IH]; intros [|c r]; simpl; auto.
  rewrite IH. reflexivity.
Qed.

Lemma stem_suffix (p : Path.t) : (Path.stem p ++ Path.suffix p)%string = Path.name p.
Proof.
  unfold Path.stem, Path.suffix.
  destruct (Path.suffix_index (Path.name p)) as [i|].
  - apply take_drop.
  - destruct (Path.name p); simpl; [reflexivity|].
    f_equal. clear. induction s; simpl; congruence.
Qed.

Lemma noslash_stem (p : Path.t) :
  noslash (Path.name p) = true -> noslash (Path.stem p) = true.
Proof.
  unfold Path.stem. destruct (Path.suffix_index (Path.name p)); auto.
  apply noslash_take.
Qed.

Lemma noslash_suffix (p : Path.t) :
  noslash (Path.name p) = true -> noslash (Path.suffix p) = true.
Proof.
  unfold Path.suffix. destruct (Path.suffix_index (Path.name p)); auto.
  apply noslash_drop.
Qed.

Lemma keep_long (x : string) : 2 <= String.length x -> Path.keep x = true.
Proof.
  destruct x as [|a [|b r]]; simpl; try lia. intros _.
  unfold Path.keep. simpl.
  destruct (Ascii.eqb a "."%char); reflexivity.
Qed.

Lemma length_app (a b : string) :
  String.length (a ++ b) = String.length a + String.length b.
Proof. induction a; simpl; congruence. Qed.

(** A candidate's file name, stem + infix + suffix, is one component. *)
Lemma variant_simple (p : Path.t) (infix : string) :
  noslash (Path.name p) = true -> noslash infix = true ->
  2 <= String.length infix ->
  simple (Path.stem p ++ infix ++ Path.suffix p).
Proof.
  intros Hn Hi Hl. split.
  - rewrite !noslash_app, (noslash_stem _ Hn), (noslash_suffix _ Hn), Hi.
    reflexivity.
  - apply keep_long. rewrite !length_app. lia.
Qed.

Lemma fold_joinpath (r : string) (dir acc : list string) :
  Forall simple dir ->
  fold_left Path.joinpath dir (Path.mk r acc) = Path.mk r (acc ++ dir).
Proof.
  intros H. revert acc.
  induction H as [|c dir [Hc Kc] Hdir IH]; intros acc; simpl.
  - rewrite app_nil_r. reflexivity.
  - rewrite (joinpath_simple _ _ Hc Kc). simpl.
    rewrite IH, <- app_assoc. reflexivity.
Qed.

Lemma of_parts_parts (r : string) (dir : list string) :
  is_root r -> Forall simple dir ->
  Path.of_parts (Path.parts (Path.mk r dir)) = Path.mk r dir.
Proof.
  intros Hr Hd. unfold Path.of_parts, Path.parts. simpl.
  destruct Hr as [-> | [-> | ->]]; simpl.
  - apply (fold_joinpath EmptyString dir []); assumption.
  - change (Path.joinpath (Path.mk EmptyString []) "/") with (Path.mk "/" []).
    apply (fold_joinpath "/" dir []); assumption.
  - change (Path.joinpath (Path.mk EmptyString []) "//") with (Path.mk "//" []).
    apply (fold_joinpath "//" dir []); assumption.
Qed.

Lemma replace_first_simple (x y : string) (l : list string) :
  simple y -> Forall simple l -> Forall simple (replace_first x y l).
Proof.
  intros Hy H. induction H as [|c l Hc Hl IH]; simpl; [constructor|].
  destruct (String.eqb x c); constructor; assumption.
Qed.

Lemma parts_replace_src (r : string) (dir : list string) :
  is_root r ->
  replace_first "src" "tests" (Path.parts (Path.mk r dir)) =
  Path.parts (Path.mk r (replace_first "src" "tests" dir)).
Proof.
  intros [-> | [-> | ->]]; reflexivity.
Qed.

Lemma parts_mem_src (r : string) (dir : list string) :
  is_root r ->
  Str.mem "src" (Path.parts (Path.mk r dir)) = Str.mem "src" dir.
Proof.
  intros [-> | [-> | ->]]; reflexivity.
Qed.

(** ** Facts about the classification *)

Lemma impl_inv (fp : string) :
  is_impl_file fp = true ->
  Str.mem (Path.suffix (Path.of_string fp)) extensions = true /\
  is_test_file fp = false.
Proof.
  unfold is_impl_file.
  destruct (Str.mem (Path.suffix (Path.of_string fp)) extensions);
    simpl; [|discriminate].
  destruct (is_test_file fp); [discriminate | auto].
Qed.

Lemma impl_named (fp : string) :
  is_impl_file fp = true -> Path.tail (Path.of_string fp) <> [].
Proof.
  intros H. apply impl_inv in H as [H _]. intros E.
  unfold Path.suffix, Path.name in H. rewrite E in H. discriminate.
Qed.

Lemma impl_name_noslash (fp : string) :
  is_impl_file fp = true -> simple (Path.name (Path.of_string fp)).
Proof.
  intros H. unfold Path.name.
  apply (Forall_last simple); [apply of_string_tail | apply impl_named, H].
Qed.

Lemma test_truthy (fp : string) :
  is_test_file fp = true -> Py.truthy (JStr fp) = true.
Proof. destruct fp; [discriminate | reflexivity]. Qed.

Lemma impl_truthy (fp : string) :
  is_impl_file fp = true -> Py.truthy (JStr fp) = true.
Proof. destruct fp; [discriminate | reflexivity]. Qed.


(** ** Facts about lists of strs and dicts *)

Lemma as_strs_map (l : list json) (ss : list string) :
  as_strs l = Some ss -> l = map JStr ss.
Proof.
  revert ss; induction l as [|v l IH]; intros ss H; simpl in H.
  - injection H as <-. reflexivity.
  - destruct v; try discriminate.
    destruct (as_strs l) as [ss'|]; [|discriminate].
    injection H as <-. simpl. rewrite (IH ss' eq_refl). reflexivity.
Qed.

Lemma as_strs_strs (ss : list string) : as_strs (map JStr ss) = Some ss.
Proof. induction ss as [|s ss IH]; simpl; [|rewrite IH]; reflexivity. Qed.

Lemma existsb_eq_str (s : string) (ss : list string) :
  existsb (Py.eq_str s) (map JStr ss) = Str.mem s ss.
Proof. unfold Str.mem. induction ss; simpl; congruence. Qed.

Lemma hashable_strs (ss : list string) : forallb Py.hashable (map JStr ss) = true.
Proof. induction ss; simpl; auto. Qed.

Lemma mem_In (s : string) (l : list string) : Str.mem s l = true <-> In s l.
Proof.
  unfold Str.mem. rewrite existsb_exists. split.
  - intros [x [Hx E]]. apply String.eqb_eq in E. subst. assumption.
  - intros H. exists s. split; [assumption | apply String.eqb_refl].
Qed.

Lemma lookup_rebind (k : string) (v : json) (kvs : list (string * json)) :
  Py.lookup k kvs <> None -> Py.lookup k (Py.rebind k v kvs) = Some v.
Proof.
  induction kvs as [|[k' v'] r IH]; simpl; [congruence|].
  destruct (String.eqb k k') eqn:E; simpl; rewrite E; auto.
Qed.

(** The candidate list starts with the same-directory [.test] variant. *)
Lemma find_matching_tests_first (fp : string) :
  exists rest,
    find_matching_tests fp =
    Path.to_string
      (Path.joinpath (Path.parent (Path.of_string fp))
         (Path.stem (Path.of_string fp) ++ ".test" ++
          Path.suffix (Path.of_string fp))%string) :: rest.
Proof. unfold find_matching_tests. cbn [map app]. eexists. reflexivity. Qed.

Lemma existsb_false_iff {A} (p : A -> bool) (l : list A) :
  existsb p l = false <-> forall x, In x l -> p x = false.
Proof.
  split.
  - intros H x Hx. destruct (p x) eqn:E; [|reflexivity].
    rewrite <- H. symmetry. apply existsb_exists. eauto.
  - intros H. destruct (existsb p l) eqn:E; [|reflexivity].
    apply existsb_exists in E as [x [Hx Px]]. rewrite (H x Hx) in Px.
    discriminate.
Qed.

Lemma parent_eta (p : Path.t) :
  Path.parent p = Path.mk (Path.root p) (removelast (Path.tail p)).
Proof. destruct p as [r [|c t]]; reflexivity. Qed.

Lemma simple_tests_dir : simple "__tests__".
Proof. split; reflexivity. Qed.

Lemma simple_tests : simple "tests".
Proof. split; reflexivity. Qed.

(** The candidate list of an implementation path, component by component. *)
Lemma find_matching_tests_impl (fp : string) :
  is_impl_file fp = true ->
  let p := Path.of_string fp in
  let r := Path.root p in
  let dir := removelast (Path.tail p) in
  let file := fun i => (Path.stem p ++ i ++ Path.suffix p)%string in
  find_matching_tests fp =
  map Path.to_string
    ([ Path.mk r (dir ++ [file ".test"]);
       Path.mk r (dir ++ [file ".spec"]);
       Path.mk r (dir ++ [file "_test"]);
       Path.mk r (dir ++ [file "_spec"]) ] ++
     [ Path.mk r (dir ++ ["__tests__"; file ".test"]);
       Path.mk r (dir ++ ["__tests__"; file ".spec"]);
       Path.mk r (dir ++ ["__tests__"; Path.name p]) ] ++
     (if Str.mem "src" dir then
        [ Path.mk r (replace_first "src" "tests" dir ++ [file ".test"]);
          Path.mk r (replace_first "src" "tests" dir ++ [file ".spec"]) ]
      else [])).
Proof.
  intros Hi p r dir file.
  pose proof (impl_name_noslash fp Hi) as [Hn Kn]. fold p in Hn, Kn.
  assert (Hv : forall i, noslash i = true -> 2 <= String.length i ->
                         simple (file i)).
  { intros i H1 H2. apply variant_simple; assumption. }
  assert (Hr : is_root r) by apply of_string_root.
  assert (Hd : Forall simple dir).
  { apply Forall_removelast, of_string_tail. }
  destruct (Hv ".test" eq_refl) as [T1 T2]; [simpl; lia|].
  destruct (Hv ".spec" eq_refl) as [S1 S2]; [simpl; lia|].
  destruct (Hv "_test" eq_refl) as [U1 U2]; [simpl; lia|].
  destruct (Hv "_spec" eq_refl) as [V1 V2]; [simpl; lia|].
  destruct simple_tests_dir as [D1 D2].
  unfold find_matching_tests. fold p. rewrite (parent_eta p). fold r dir.
  rewrite (stem_suffix p).
  change (Path.stem p ++ ".test" ++ Path.suffix p)%string with (file ".test").
  change (Path.stem p ++ ".spec" ++ Path.suffix p)%string with (file ".spec").
  change (Path.stem p ++ "_test" ++ Path.suffix p)%string with (file "_test").
  change (Path.stem p ++ "_spec" ++ Path.suffix p)%string with (file "_spec").
  rewrite (joinpath_simple _ "__tests__" D1 D2).
  rewrite !(joinpath_simple _ (file ".test") T1 T2).
  rewrite !(joinpath_simple _ (file ".spec") S1 S2).
  rewrite (joinpath_simple _ (file "_test") U1 U2).
  rewrite (joinpath_simple _ (file "_spec") V1 V2).
  rewrite (joinpath_simple _ (Path.name p) Hn Kn).
  cbn [Path.root Path.tail].
  rewrite (parts_mem_src r dir Hr), (parts_replace_src r dir Hr).
  rewrite (of_parts_parts r _ Hr
             (replace_first_simple "src" "tests" dir simple_tests Hd)).
  rewrite <- !app_assoc. cbn [app Path.root Path.tail].
  destruct (Str.mem "src" dir); reflexivity.
Qed.


(** ** Further facts about paths: [Path(str(p))] is [p] *)

Lemma split_app_slash (x rest : string) :
  noslash x = true ->
  Str.split Str.slash (x ++ String Str.slash rest) = x :: Str.split Str.slash rest.
Proof.
  induction x as [|c r IH]; intros H.
  - simpl. reflexivity.
  - simpl in H. apply andb_true_iff in H as [Hc Hr].
    apply negb_true_iff in Hc.
    cbn [append Str.split]. rewrite Hc, (IH Hr). reflexivity.
Qed.

Lemma split_join (l : list string) :
  Forall (fun c => noslash c = true) l -> l <> [] ->
  Str.split Str.slash (Str.join "/" l) = l.
Proof.
  induction 1 as [|x l Hx Hl IH]; intros Hne; [congruence|].
  destruct l as [|y l'].
  - simpl. apply noslash_split, Hx.
  - change (Str.join "/" (x :: y :: l'))
      with (x ++ String Str.slash (Str.join "/" (y :: l')))%string.
    rewrite (split_app_slash _ _ Hx), IH by discriminate. reflexivity.
Qed.

Lemma filter_keep (l : list string) :
  Forall simple l -> filter Path.keep l = l.
Proof.
  induction 1 as [|x l [_ K] Hl IH]; simpl; [reflexivity|].
  rewrite K, IH. reflexivity.
Qed.

Lemma components_join (l : list string) :
  Forall simple l -> Path.components (Str.join "/" l) = l.
Proof.
  intros H. unfold Path.components. destruct l as [|x l'].
  - reflexivity.
  - rewrite split_join; [apply filter_keep, H | | discriminate].
    eapply Forall_impl; [|exact H]. intros a [Ha _]. exact Ha.
Qed.

(** A simple component starts with a character other than "/". *)
Lemma simple_head (x : string) :
  simple x -> exists c r, x = String c r /\ Ascii.eqb c Str.slash = false.
Proof.
  intros [H K]. destruct x as [|c r]; [discriminate K|].
  simpl in H. apply andb_true_iff in H as [Hc _].
  apply negb_true_iff in Hc. eauto.
Qed.

Lemma join_head (l : list string) :
  Forall simple l -> l <> [] ->
  exists c r, Str.join "/" l = String c r /\ Ascii.eqb c Str.slash = false.
Proof.
  intros H Hne. destruct H as [|x l Hx Hl]; [congruence|].
  destruct (simple_head x Hx) as [c [r [-> Hc]]].
  destruct l; simpl; eauto.
Qed.

(** Round trip: parsing the text of a path gives the path back. *)
Lemma of_string_to_string (r : string) (l : list string) :
  is_root r -> Forall simple l ->
  Path.of_string (Path.to_string (Path.mk r l)) = Path.mk r l.
Proof.
  intros Hr Hl. pose proof (components_join l Hl) as C.
  destruct l as [|x l'].
  - destruct Hr as [-> | [-> | ->]]; reflexivity.
  - destruct (join_head (x :: l') Hl) as [c [s [E Hc]]]; [discriminate|].
    unfold Path.to_string, Path.of_string. cbn [Path.root Path.tail].
    destruct Hr as [-> | [-> | ->]]; cbn [Str.is_empty].
    + rewrite E in *. unfold Path.splitroot. rewrite Hc, C. reflexivity.
    + change ("/" ++ Str.join "/" (x :: l'))%string
        with (String Str.slash (Str.join "/" (x :: l'))).
      rewrite E in *. unfold Path.splitroot.
      rewrite Ascii.eqb_refl, Hc, C. reflexivity.
    + change ("//" ++ Str.join "/" (x :: l'))%string
        with (String Str.slash (String Str.slash (Str.join "/" (x :: l')))).
      rewrite E in *. unfold Path.splitroot.
      rewrite !Ascii.eqb_refl, Hc, C. reflexivity.
Qed.

(** ** Further facts about the candidates *)

Lemma lower_app (a b : string) :
  Str.lower (a ++ b) = (Str.lower a ++ Str.lower b)%string.
Proof. induction a as [|c r IH]; simpl; [|rewrite IH]; reflexivity. Qed.

Lemma contains_app (p a b : string) :
  Str.contains p b = true -> Str.contains p (a ++ b) = true.
Proof.
  intros H. induction a as [|c r IH]; [exact H|].
  cbn [append Str.contains]. rewrite IH. apply orb_true_r.
Qed.

Lemma mem_app (x : string) (a b : list string) :
  Str.mem x (a ++ b) = Str.mem x a || Str.mem x b.
Proof. unfold Str.mem. apply existsb_app. Qed.

Lemma mem_parts (x r : string) (tl : list string) :
  Str.mem x tl = true -> Str.mem x (Path.parts (Path.mk r tl)) = true.
Proof.
  intros H. unfold Path.parts. cbn [Path.root Path.tail].
  destruct (Str.is_empty r); [exact H|].
  unfold Str.mem in *. cbn [existsb]. rewrite H. apply orb_true_r.
Qed.

(** [is_test_file] on the text of a path, by the path's parts. *)
Lemma is_test_file_path (r : string) (tl : list string) :
  is_root r -> Forall simple tl ->
  is_test_file (Path.to_string (Path.mk r tl)) =
  (Str.mem "__tests__" (Path.parts (Path.mk r tl))
   || Str.mem "tests" (Path.parts (Path.mk r tl))
   || existsb (fun pattern => Str.contains pattern (Str.lower (last tl EmptyString)))
        test_patterns).
Proof.
  intros Hr Hl. unfold is_test_file.
  rewrite (of_string_to_string r tl Hr Hl). unfold Path.name.
  cbn [Path.tail].
  destruct (Str.mem "__tests__" (Path.parts (Path.mk r tl))); [reflexivity|].
  destruct (Str.mem "tests" (Path.parts (Path.mk r tl))); reflexivity.
Qed.

Lemma extension_cases (x : string) :
  Str.mem x extensions = true ->
  x = ".ts" \/ x = ".tsx" \/ x = ".js" \/ x = ".jsx" \/ x = ".mjs" \/ x = ".cjs".
Proof.
  intros H. apply mem_In in H. simpl in H.
  repeat (destruct H as [H|H]; [subst; auto 10|]). contradiction.
Qed.

(** A name made of a stem, one of the four infixes and a recognised
    extension carries a test marker once lower-cased. *)
Lemma variant_marked (stem infix x : string) :
  In infix infixes -> Str.mem x extensions = true ->
  existsb (fun pattern =>
             Str.contains pattern (Str.lower (stem ++ infix ++ x)))
          test_patterns = true.
Proof.
  intros Hi Hx. rewrite lower_app.
  apply extension_cases in Hx. simpl in Hi.
  apply existsb_exists.
  destruct Hi as [<- | [<- | [<- | [<- | []]]]].
  - exists ".test.". split; [simpl; auto|]. apply contains_app.
    destruct Hx as [-> | [-> | [-> | [-> | [-> | ->]]]]]; reflexivity.
  - exists ".spec.". split; [simpl; auto|]. apply contains_app.
    destruct Hx as [-> | [-> | [-> | [-> | [-> | ->]]]]]; reflexivity.
  - exists "_test.". split; [simpl; auto|]. apply contains_app.
    destruct Hx as [-> | [-> | [-> | [-> | [-> | ->]]]]]; reflexivity.
  - exists "_spec.". split; [simpl; auto 10|]. apply contains_app.
    destruct Hx as [-> | [-> | [-> | [-> | [-> | ->]]]]]; reflexivity.
Qed.

Lemma last_snoc {A} (l : list A) (x d : A) : last (l ++ [x]) d = x.
Proof. apply last_last. Qed.

Lemma last_snoc2 {A} (l : list A) (y x d : A) : last (l ++ [y; x]) d = x.
Proof.
  change (l ++ [y; x]) with (l ++ [y] ++ [x]).
  rewrite app_assoc. apply last_last.
Qed.

Lemma Forall_snoc {A} (P : A -> Prop) (l : list A) (x : A) :
  Forall P l -> P x -> Forall P (l ++ [x]).
Proof. intros Hl Hx. apply Forall_app. split; [exact Hl | repeat constructor; exact Hx]. Qed.

(** The paths behind the candidates of an implementation file are made of
    simple components. *)
Lemma impl_parts_simple (fp : string) :
  is_impl_file fp = true ->
  let p := Path.of_string fp in
  is_root (Path.root p) /\
  Forall simple (removelast (Path.tail p)) /\
  simple (Path.name p) /\
  (forall i, In i infixes ->
     simple (Path.stem p ++ i ++ Path.suffix p)) /\
  Str.mem (Path.suffix p) extensions = true.
Proof.
  intros Hi p.
  pose proof (impl_name_noslash fp Hi) as Hn. fold p in Hn.
  split; [apply of_string_root|].
  split; [apply Forall_removelast, of_string_tail|].
  split; [exact Hn|]. split.
  - intros i Hin. destruct Hn as [Hn _]. simpl in Hin.
    destruct Hin as [<- | [<- | [<- | [<- | []]]]];
      apply variant_simple; try assumption; try reflexivity; simpl; lia.
  - apply impl_inv, Hi.
Qed.

Lemma variant_not_dotdot (s i x : string) :
  In i infixes -> (s ++ i ++ x)%string <> "..".
Proof.
  intros Hi E. apply (f_equal String.length) in E.
  rewrite !length_app in E. simpl in Hi.
  destruct Hi as [<- | [<- | [<- | [<- | []]]]]; simpl in E; lia.
Qed.

Lemma impl_name_not_dotdot (fp : string) :
  is_impl_file fp = true -> Path.name (Path.of_string fp) <> "..".
Proof.
  intros Hi E. apply impl_inv in Hi as [Hx _].
  unfold Path.suffix in Hx. rewrite E in Hx. discriminate Hx.
Qed.

(** The shape of every candidate of an implementation path: the text of a
    path with simple components whose last one is not "..", and which
    either is an infix variant of the file name or lies under [__tests__]. *)
Lemma candidate_shape (fp c : string) :
  is_impl_file fp = true -> In c (find_matching_tests fp) ->
  let p := Path.of_string fp in
  exists pre x,
    c = Path.to_string (Path.mk (Path.root p) (pre ++ [x])) /\
    Forall simple (pre ++ [x]) /\ x <> ".." /\
    ((exists i, In i infixes /\ x = (Path.stem p ++ i ++ Path.suffix p)%string)
     \/ Str.mem "__tests__" pre = true).
Proof.
  intros Hi Hc p.
  destruct (impl_parts_simple fp Hi) as [Hr [Hd [Hn [Hv Hx]]]].
  fold p in Hr, Hd, Hn, Hv, Hx.
  pose proof (impl_name_not_dotdot fp Hi) as Hnd. fold p in Hnd.
  rewrite (find_matching_tests_impl fp Hi) in Hc. cbv zeta in Hc. fold p in Hc.
  set (dir := removelast (Path.tail p)) in *.
  assert (Ht : Forall simple (dir ++ ["__tests__"])).
  { apply Forall_snoc; [exact Hd | exact simple_tests_dir]. }
  assert (Hm : Forall simple (replace_first "src" "tests" dir)).
  { apply replace_first_simple; [exact simple_tests | exact Hd]. }
  assert (Mt : Str.mem "__tests__" (dir ++ ["__tests__"]) = true).
  { rewrite mem_app. apply orb_true_r. }
  assert (I1 : In ".test" infixes) by (simpl; auto).
  assert (I2 : In ".spec" infixes) by (simpl; auto).
  assert (I3 : In "_test" infixes) by (simpl; auto).
  assert (I4 : In "_spec" infixes) by (simpl; auto 10).
  assert (V : forall pre i, In i infixes -> Forall simple pre ->
              exists pre' x,
                Path.to_string
                  (Path.mk (Path.root p)
                     (pre ++ [(Path.stem p ++ i ++ Path.suffix p)%string])) =
                Path.to_string (Path.mk (Path.root p) (pre' ++ [x])) /\
                Forall simple (pre' ++ [x]) /\ x <> ".." /\
                ((exists i', In i' infixes /\
                    x = (Path.stem p ++ i' ++ Path.suffix p)%string)
                 \/ Str.mem "__tests__" pre' = true)).
  { intros pre i Hin Hpre. exists pre, (Path.stem p ++ i ++ Path.suffix p)%string.
    split; [reflexivity|]. split; [apply Forall_snoc; auto|].
    split; [apply variant_not_dotdot, Hin|]. left. eauto. }
  assert (W : forall i, 
              (dir ++ ["__tests__"; (Path.stem p ++ i ++ Path.suffix p)%string]) =
              ((dir ++ ["__tests__"]) ++ [(Path.stem p ++ i ++ Path.suffix p)%string])).
  { intros i. rewrite <- app_assoc. reflexivity. }
  rewrite map_app, map_app in Hc.
  apply in_app_or in Hc as [Hc | Hc]; [|apply in_app_or in Hc as [Hc | Hc]].
  - cbn [map In] in Hc.
    destruct Hc as [<- | [<- | [<- | [<- | []]]]]; apply V; assumption.
  - cbn [map In] in Hc. destruct Hc as [<- | [<- | [<- | []]]].
    + rewrite W. apply V; assumption.
    + rewrite W. apply V; assumption.
    + exists (dir ++ ["__tests__"]), (Path.name p).
      split; [rewrite <- app_assoc; reflexivity|].
      split; [apply Forall_snoc; assumption|]. split; [exact Hnd|].
      right. exact Mt.
  - destruct (Str.mem "src" dir); [|contradiction].
    cbn [map In] in Hc. destruct Hc as [<- | [<- | []]]; apply V; assumption.
Qed.

Lemma test_not_impl (c : string) : is_test_file c = true -> is_impl_file c = false.
Proof.
  intros H. unfold is_impl_file. rewrite H.
  destruct (negb _); reflexivity.
Qed.

Lemma candidate_is_test (fp c : string) :
  is_impl_file fp = true -> In c (find_matching_tests fp) ->
  is_test_file c = true.
Proof.
  intros Hi Hc.
  destruct (impl_parts_simple fp Hi) as [Hr [_ [_ [_ Hx]]]].
  destruct (candidate_shape fp c Hi Hc) as [pre [x [-> [Hs [_ Hk]]]]].
  rewrite (is_test_file_path _ _ Hr Hs), last_snoc.
  destruct Hk as [[i [Hin ->]] | Hm].
  - rewrite (variant_marked _ i _ Hin Hx). apply orb_true_r.
  - rewrite (mem_parts "__tests__" _ (pre ++ [x])); [reflexivity|].
    rewrite mem_app, Hm. reflexivity.
Qed.



Lemma printable_app (a b : string) :
  printable (a ++ b) = printable a && printable b.
Proof.
  induction a as [|c r IH]; simpl; [reflexivity|].
  rewrite IH, andb_assoc. reflexivity.
Qed.

Lemma escape_char_printable (c : ascii) :
  printable (Dumps.escape_char c) = true.
Proof.
  destruct c as [[|] [|] [|] [|] [|] [|] [|] [|]]; vm_compute; reflexivity.
Qed.

Lemma escape_printable (s : string) : printable (Dumps.escape s) = true.
Proof.
  induction s as [|c r IH]; [reflexivity|].
  cbn [Dumps.escape]. rewrite printable_app, escape_char_printable, IH.
  reflexivity.
Qed.

Lemma dumps_block_printable (reason : string) :
  printable (Dumps.dumps (block reason)) = true.
Proof.
  unfold block. cbn [Dumps.dumps map Str.join]. unfold Dumps.quote.
  rewrite !printable_app, !escape_printable. reflexivity.
Qed.

Lemma push_simple (acc : list string) (c : string) :
  Forall simple acc -> simple c -> Forall simple (Cwd.push acc c).
Proof.
  intros Ha Hc. unfold Cwd.push. destruct (String.eqb c "..").
  - apply Forall_removelast, Ha.
  - apply Forall_snoc; assumption.
Qed.

Lemma fold_push_simple (xs acc : list string) :
  Forall simple acc -> Forall simple xs ->
  Forall simple (fold_left Cwd.push xs acc).
Proof.
  revert acc. induction xs as [|x xs IH]; intros acc Ha Hx; [exact Ha|].
  inversion Hx; subst. cbn [fold_left]. apply IH; [|assumption].
  apply push_simple; assumption.
Qed.

Lemma existsb_ext_in {A} (p q : A -> bool) (l : list A) :
  (forall x, In x l -> p x = q x) -> existsb p l = existsb q l.
Proof.
  induction l as [|a l IH]; intros H; [reflexivity|].
  cbn [existsb]. rewrite (H a (or_introl eq_refl)), IH; [reflexivity|].
  intros x Hx. apply H. right. exact Hx.
Qed.




Lemma record_path_In (l : list string) (np x : string) :
  In x (record_path l np) <-> In x l \/ x = np.
Proof.
  unfold record_path. destruct (Str.mem np l) eqn:M.
  - apply mem_In in M. split; [auto|]. intros [H | ->]; assumption.
  - rewrite in_app_iff. simpl. split.
    + intros [H | [H | []]]; auto.
    + intros [H | ->]; auto.
Qed.

Lemma fold_record_In (ps l : list string) (x : string) :
  In x (fold_left record_path ps l) <-> In x l \/ In x ps.
Proof.
  revert l. induction ps as [|p ps IH]; intros l; cbn [fold_left].
  - simpl. split; [auto | intros [H | []]; exact H].
  - rewrite IH, record_path_In. simpl. split.
    + intros [[H | ->] | H]; auto.
    + intros [H | [<- | H]]; auto.
Qed.


Lemma name_of_text (r : string) (tl : list string) (x : string) :
  is_root r -> Forall simple tl -> simple x ->
  Path.name (Path.of_string (Path.to_string (Path.mk r (tl ++ [x])))) = x.
Proof.
  intros Hr Ht Hx.
  rewrite (of_string_to_string r (tl ++ [x]) Hr (Forall_snoc _ _ _ Ht Hx)).
  unfold Path.name. cbn [Path.tail]. apply last_snoc.
Qed.

Lemma name_of_text2 (r : string) (tl : list string) (y x : string) :
  is_root r -> Forall simple tl -> simple y -> simple x ->
  Path.name (Path.of_string (Path.to_string (Path.mk r (tl ++ [y; x])))) = x.
Proof.
  intros Hr Ht Hy Hx.
  change (tl ++ [y; x]) with (tl ++ [y] ++ [x]). rewrite app_assoc.
  apply name_of_text; [exact Hr | apply Forall_snoc; assumption | exact Hx].
Qed.

(** The file names of the candidates of an implementation path. *)
Lemma candidate_names (fp : string) :
  is_impl_file fp = true ->
  let p := Path.of_string fp in
  let file := fun i => (Path.stem p ++ i ++ Path.suffix p)%string in
  map (fun c => Path.name (Path.of_string c)) (find_matching_tests fp) =
  [file ".test"; file ".spec"; file "_test"; file "_spec";
   file ".test"; file ".spec"; Path.name p] ++
  (if Str.mem "src" (removelast (Path.tail p))
   then [file ".test"; file ".spec"] else []).
Proof.
  intros Hi p file.
  destruct (impl_parts_simple fp Hi) as [Hr [Hd [Hn [Hv _]]]].
  fold p in Hr, Hd, Hn, Hv.
  assert (V1 : simple (file ".test")) by (apply Hv; simpl; auto).
  assert (V2 : simple (file ".spec")) by (apply Hv; simpl; auto).
  assert (V3 : simple (file "_test")) by (apply Hv; simpl; auto).
  assert (V4 : simple (file "_spec")) by (apply Hv; simpl; auto 10).
  pose proof simple_tests_dir as Ht.
  pose proof (replace_first_simple "src" "tests" _ simple_tests Hd) as Hm.
  rewrite (find_matching_tests_impl fp Hi). cbv zeta. fold p.
  fold (file ".test") (file ".spec") (file "_test") (file "_spec").
  rewrite map_map, !map_app. cbn [map app].
  rewrite !(name_of_text _ _ _ Hr Hd V1), !(name_of_text _ _ _ Hr Hd V2),
          (name_of_text _ _ _ Hr Hd V3), (name_of_text _ _ _ Hr Hd V4),
          (name_of_text2 _ _ _ _ Hr Hd Ht V1),
          (name_of_text2 _ _ _ _ Hr Hd Ht V2),
          (name_of_text2 _ _ _ _ Hr Hd Ht Hn).
  destruct (Str.mem "src" (removelast (Path.tail p))); cbn [map];
    [|reflexivity].
  rewrite (name_of_text _ _ _ Hr Hm V1), (name_of_text _ _ _ Hr Hm V2).
  reflexivity.
Qed.




(** ** Facts about well-shaped stores *)

(** The shape [recorded] asks for, spelled out. *)
Lemma recorded_inv (f : StoreFile) (l : list string) :
  recorded f = Some l ->
  exists kvs, load_state f = Ok (JObj kvs) /\
              Py.lookup KEY kvs = Some (JArr (map JStr l)).
Proof.
  unfold recorded.
  destruct (load_state f) as [[| | | | |kvs]|e]; try discriminate.
  destruct (Py.lookup KEY kvs) as [[| | | |js|]|] eqn:E; try discriminate.
  intros H. apply as_strs_map in H. subst. eauto.
Qed.

Lemma recorded_doc (kvs : list (string * json)) (l : list string) :
  Py.lookup KEY kvs = Some (JArr (map JStr l)) ->
  recorded (Doc (JObj kvs)) = Some l.
Proof.
  intros H. unfold recorded. cbn [load_state]. rewrite H. apply as_strs_strs.
Qed.

(** The set built from a list of strs holds these strs, in some order. *)
Lemma set_strs (env : Env) (l : list string) :
  strs_of l (set_order env (map JStr l)).
Proof.
  split.
  - intros v Hv. apply set_order_sound in Hv.
    apply in_map_iff in Hv as [s [<- Hs]]. eauto.
  - intros s Hs. apply set_order_strs, in_map, Hs.
Qed.

Lemma eq_str_strs_of (n : string) (l : list string) (values : list json) :
  strs_of l values -> existsb (Py.eq_str n) values = Str.mem n l.
Proof.
  intros [H1 H2]. apply eq_true_iff_eq.
  rewrite existsb_exists, mem_In. split.
  - intros [v [Hv E]]. destruct (H1 v Hv) as [s [-> Hs]].
    cbn [Py.eq_str] in E. apply String.eqb_eq in E. subst. exact Hs.
  - intros Hn. exists (JStr n). split; [apply H2, Hn|].
    cbn [Py.eq_str]. apply String.eqb_refl.
Qed.

(** The inner loop on a set of strs is a search; it raises nothing. *)
Lemma name_matches_strs_of (c : string) (l : list string) (values : list json) :
  strs_of l values -> name_matches c values = Ok (existsb (same_name c) l).
Proof.
  intros [H1 H2].
  assert (G : forall vs, (forall v, In v vs -> exists s, v = JStr s) ->
            name_matches c vs =
            Ok (existsb (fun v => match v with
                                  | JStr m => same_name c m
                                  | _ => false
                                  end) vs)).
  { induction vs as [|v vs IH]; intros Hs; [reflexivity|].
    destruct (Hs v (or_introl eq_refl)) as [s ->].
    cbn [name_matches Py.path bind existsb]. unfold same_name at 1.
    destruct (String.eqb _ _); cbn [orb]; [reflexivity|].
    apply IH. intros w Hw. apply Hs. right. exact Hw. }
  rewrite G.
  - f_equal. apply eq_true_iff_eq. rewrite !existsb_exists. split.
    + intros [v [Hv E]]. destruct (H1 v Hv) as [s [-> Hs]]. eauto.
    + intros [s [Hs E]]. exists (JStr s). split; [apply H2, Hs | exact E].
  - intros v Hv. destruct (H1 v Hv) as [s [-> _]]. eauto.
Qed.

Lemma any_matching_scan (env : Env) (cands l : list string)
  (values : list json) :
  strs_of l values -> any_matching env cands values = scan env l cands.
Proof.
  intros H. induction cands as [|c cands IH]; [reflexivity|].
  cbn [any_matching scan].
  destruct (normalize_path env c) as [n|e]; [|reflexivity]. cbn [bind].
  rewrite (eq_str_strs_of n l values H), (name_matches_strs_of c l values H).
  cbn [bind].
  destruct (Str.mem n l); [reflexivity|]. cbn [orb].
  destruct (existsb (same_name c) l); [reflexivity | exact IH].
Qed.

Lemma scan_resolvable (env : Env) (l cands : list string) :
  forallb (resolvable env) cands = true ->
  scan env l cands = Ok (existsb (candidate_matches env l) cands).
Proof.
  induction cands as [|c cands IH]; intros H; [reflexivity|].
  cbn [forallb] in H. apply andb_true_iff in H as [Hc Hr].
  cbn [scan existsb]. unfold candidate_matches at 1. unfold resolvable in Hc.
  destruct (normalize_path env c) as [n|e]; [|discriminate Hc]. cbn [bind].
  destruct (Str.mem n l || existsb (same_name c) l); [reflexivity|].
  apply IH, Hr.
Qed.

Lemma scan_same_set (env : Env) (l l' cands : list string) :
  (forall x, In x l <-> In x l') -> scan env l cands = scan env l' cands.
Proof.
  intros H. induction cands as [|c cands IH]; [reflexivity|].
  cbn [scan]. destruct (normalize_path env c) as [n|e]; [|reflexivity].
  cbn [bind].
  replace (Str.mem n l') with (Str.mem n l).
  2:{ apply eq_true_iff_eq. rewrite !mem_In. apply H. }
  replace (existsb (same_name c) l') with (existsb (same_name c) l).
  2:{ apply eq_true_iff_eq. rewrite !existsb_exists.
      split; intros [m [Hm E]]; exists m; split; auto; apply H; exact Hm. }
  rewrite IH. reflexivity.
Qed.

(** The implementation branch on a well-shaped state. *)
Lemma check_impl_recorded (env : Env) (kvs : list (string * json))
  (l : list string) (fp : string) :
  Py.lookup KEY kvs = Some (JArr (map JStr l)) ->
  check_impl env (JObj kvs) fp =
  (found <- scan env l (find_matching_tests fp) ;;
   if found then Ok allow
   else Ok (block (block_reason
                     (suggested_test fp (find_matching_tests fp))))).
Proof.
  intros L. unfold check_impl. cbn [Py.get bind]. rewrite L.
  cbn [Py.set]. rewrite hashable_strs. cbn [bind].
  rewrite (any_matching_scan env _ l _ (set_strs env l)). reflexivity.
Qed.

Lemma check_impl_response (env : Env) (state : json) (fp : string)
  (response : json) :
  check_impl env state fp = Ok response ->
  response = allow \/
  response = block (block_reason (suggested_test fp (find_matching_tests fp))).
Proof.
  unfold check_impl.
  destruct (Py.get state KEY (JArr [])) as [files|]; [|discriminate].
  cbn [bind].
  destruct (Py.set (set_order env) files) as [ms|]; [|discriminate].
  cbn [bind].
  destruct (any_matching env (find_matching_tests fp) ms) as [[|]|];
    cbn [bind]; intros H; inversion H; auto.
Qed.

(** What [main] does with a str path once the state is loaded and the
    path resolved. *)
Lemma main_resolved (env : Env) (d : json) (fp : string) (f : StoreFile)
  (state : json) (np : string) :
  file_path_of d = Ok (JStr fp) -> fp <> EmptyString ->
  load_state f = Ok state -> normalize_path env fp = Ok np ->
  main env (Json d) f =
  if is_test_file fp then write_test state np f
  else if negb (is_impl_file fp) then reply allow f
  else match check_impl env state fp with
       | Raise e => crash e f
       | Ok response => reply response f
       end.
Proof.
  intros Hd Hne Hs Hn. unfold main. rewrite Hd.
  destruct fp as [|c r]; [congruence|]. cbn [Py.truthy Str.is_empty negb].
  rewrite Hs, Hn. reflexivity.
Qed.

Lemma test_not_empty (fp : string) : is_test_file fp = true -> fp <> EmptyString.
Proof. intros H E. subst. discriminate H. Qed.

Lemma impl_not_empty (fp : string) : is_impl_file fp = true -> fp <> EmptyString.
Proof. intros H E. subst. discriminate H. Qed.

Lemma main_test (env : Env) (d : json) (fp : string) (f : StoreFile)
  (state : json) (np : string) :
  file_path_of d = Ok (JStr fp) -> is_test_file fp = true ->
  load_state f = Ok state -> normalize_path env fp = Ok np ->
  main env (Json d) f = write_test state np f.
Proof.
  intros Hd Ht Hs Hn.
  rewrite (main_resolved env d fp f state np Hd (test_not_empty _ Ht) Hs Hn).
  rewrite Ht. reflexivity.
Qed.

Lemma main_impl (env : Env) (d : json) (fp : string) (f : StoreFile)
  (state : json) (np : string) :
  file_path_of d = Ok (JStr fp) -> is_impl_file fp = true ->
  load_state f = Ok state -> normalize_path env fp = Ok np ->
  main env (Json d) f =
  match check_impl env state fp with
  | Raise e => crash e f
  | Ok response => reply response f
  end.
Proof.
  intros Hd Hi Hs Hn.
  rewrite (main_resolved env d fp f state np Hd (impl_not_empty _ Hi) Hs Hn).
  destruct (impl_inv _ Hi) as [_ Ht]. rewrite Ht, Hi. reflexivity.
Qed.

(** Recording on a well-shaped state. *)
Lemma record_test_recorded (kvs : list (string * json)) (l : list string)
  (np : string) :
  Py.lookup KEY kvs = Some (JArr (map JStr l)) ->
  record_test (JObj kvs) np =
  Ok (if Str.mem np l then None
      else Some (JObj (Py.rebind KEY (JArr (map JStr (l ++ [np]))) kvs))) /\
  recorded (Doc (JObj (Py.rebind KEY (JArr (map JStr (l ++ [np]))) kvs))) =
  Some (l ++ [np]).
Proof.
  intros L. split.
  - unfold record_test. cbn [Py.getitem bind]. rewrite L.
    cbn [Py.contains bind]. rewrite existsb_eq_str.
    destruct (Str.mem np l); cbn [negb Py.append bind]; [reflexivity|].
    rewrite map_app. reflexivity.
  - apply recorded_doc, lookup_rebind. congruence.
Qed.

(** A test write on a well-shaped store that can be written. *)
Lemma write_test_recorded (f : StoreFile) (l : list string)
  (kvs : list (string * json)) (np : string) :
  load_state f = Ok (JObj kvs) ->
  Py.lookup KEY kvs = Some (JArr (map JStr l)) ->
  writable f = true ->
  exists f',
    write_test (JObj kvs) np f = reply allow f' /\
    recorded f' = Some (record_path l np) /\
    writable f' = true /\
    (Str.mem np l = true -> f' = f) /\
    (Str.mem np l = false ->
     f' = Doc (JObj (Py.rebind KEY (JArr (map JStr (l ++ [np]))) kvs))).
Proof.
  intros Hs L W. unfold write_test, record_path.
  destruct (record_test_recorded kvs l np L) as [-> Hrec].
  destruct (Str.mem np l).
  - exists f. repeat split; auto.
    + unfold recorded. rewrite Hs, L. apply as_strs_strs.
    + intros H. discriminate H.
  - unfold save_state. rewrite W. eexists. split; [reflexivity|].
    split; [exact Hrec|]. split; [reflexivity|].
    split; [intros H; discriminate H | reflexivity].
Qed.

(** A test write on a well-shaped store that cannot be written. *)
Lemma write_test_unwritable (f : StoreFile) (l : list string)
  (kvs : list (string * json)) (np : string) :
  Py.lookup KEY kvs = Some (JArr (map JStr l)) ->
  writable f = false ->
  store (write_test (JObj kvs) np f) = f.
Proof.
  intros L W. unfold write_test.
  destruct (record_test_recorded kvs l np L) as [-> _].
  destruct (Str.mem np l); [reflexivity|].
  unfold save_state. rewrite W. reflexivity.
Qed.

(** A Block is printed for an implementation path only, with the first
    candidate as suggestion and the store as it was. *)
Lemma main_block_inv (env : Env) (stdin : Stdin) (f : StoreFile)
  (reason : string) :
  In (block reason) (stdout (main env stdin f)) ->
  exists d fp,
    stdin = Json d /\ file_path_of d = Ok (JStr fp) /\
    is_impl_file fp = true /\ is_test_file fp = false /\
    reason = block_reason (suggested_test fp (find_matching_tests fp)) /\
    main env stdin f = reply (block reason) f.
Proof.
  unfold main. destruct stdin as [|x|d].
  { intros [H | []]. discriminate H. }
  { intros []. }
  destruct (file_path_of d) as [v|e] eqn:Hd; [|intros []].
  destruct (negb (Py.truthy v)).
  { intros [H | []]. discriminate H. }
  destruct (load_state f) as [state|e]; [|intros []].
  destruct v as [| | |fp| |]; try (intros []).
  destruct (normalize_path env fp) as [np|e]; [|intros []].
  destruct (is_test_file fp) eqn:T.
  { unfold write_test.
    destruct (record_test state np) as [[st|]|e].
    - destruct (save_state st f) as [f'|e]; [|intros []].
      intros [H | []]. discriminate H.
    - intros [H | []]. discriminate H.
    - intros []. }
  destruct (is_impl_file fp) eqn:I; cbn [negb].
  2:{ intros [H | []]. discriminate H. }
  destruct (check_impl env state fp) as [resp|e] eqn:C; [|intros []].
  intros [H | []]. cbn [reply stdout] in H. subst resp.
  apply check_impl_response in C as [C | C]; [discriminate C|].
  injection C as C.
  exists d, fp. repeat split; auto.
Qed.

(** ** The claims *)

(** C1 (the code departs from it).  A store file holding the JSON document
    of an empty object, or an object without the [test_files_modified] key,
    is valid JSON, so [load_state] returns it as it is; a write of a test
    file then reads [state["test_files_modified"]] at line 152 and ends
    with an uncaught [KeyError]: nothing is printed, no Allow is given. *)
Theorem C1_test_write_on_keyless_store_raises :
  is_test_file "src/utils/math.test.ts" = true /\
  main work (Json (request "src/utils/math.test.ts")) (Doc (JObj [])) =
    crash KeyError (Doc (JObj [])) /\
  main work (Json (request "src/utils/math.test.ts"))
       (Doc (JObj [("session_id", JNull)])) =
    crash KeyError (Doc (JObj [("session_id", JNull)])) /\
  stdout_text
    (main work (Json (request "src/utils/math.test.ts")) (Doc (JObj []))) =
    EmptyString.
Proof. repeat split; vm_compute; reflexivity. Qed.




(** C3, as stated, fails in its second group: the [__tests__] candidates
    are not the same infix variants as the same-directory ones.  For
    src/utils/math.ts the list has no [__tests__] candidate with [_test]
    or [_spec], and has the file's own name under [__tests__] instead. *)
Lemma C3_tests_dir_variants_differ :
  ~ incl (spec_tests_dir "src/utils/math.ts")
         (find_matching_tests "src/utils/math.ts") /\
  ~ In "src/utils/__tests__/math_test.ts"
       (find_matching_tests "src/utils/math.ts") /\
  In "src/utils/__tests__/math.ts" (find_matching_tests "src/utils/math.ts") /\
  ~ In "src/utils/__tests__/math.ts" (spec_tests_dir "src/utils/math.ts").
Proof.
  assert (N : ~ In "src/utils/__tests__/math_test.ts"
                (find_matching_tests "src/utils/math.ts")).
  { vm_compute. intros H.
    repeat (destruct H as [H|H]; [discriminate H|]). exact H. }
  split; [|split; [exact N|split]].
  - intros H. apply N, H. vm_compute. auto.
  - vm_compute. auto 10.
  - vm_compute. intros H.
    repeat (destruct H as [H|H]; [discriminate H|]). exact H.
Qed.

(** C3, amended.  For every implementation path with directory [dir],
    stem [s] and suffix [x], the candidates are, in this order: (a) the four
    same-directory siblings [s.test x], [s.spec x], [s_test x], [s_spec x];
    (b) under [dir/__tests__], the three names [s.test x], [s.spec x] and
    the file's own name; (c) when [dir] has a segment [src], two more, in
    the directory that has the first such segment replaced by [tests]:
    [s.test x] and [s.spec x].  The list has seven or nine elements, so it
    is never empty, and whenever the decision is Block its reason names the
    first candidate, the [.test] sibling. *)
Theorem C3_candidates_in_order (fp : string) :
  is_impl_file fp = true ->
  let p := Path.of_string fp in
  let r := Path.root p in
  let dir := removelast (Path.tail p) in
  let file := fun i => (Path.stem p ++ i ++ Path.suffix p)%string in
  find_matching_tests fp =
    map Path.to_string
      ([ Path.mk r (dir ++ [file ".test"]);
         Path.mk r (dir ++ [file ".spec"]);
         Path.mk r (dir ++ [file "_test"]);
         Path.mk r (dir ++ [file "_spec"]) ] ++
       [ Path.mk r (dir ++ ["__tests__"; file ".test"]);
         Path.mk r (dir ++ ["__tests__"; file ".spec"]);
         Path.mk r (dir ++ ["__tests__"; Path.name p]) ] ++
       (if Str.mem "src" dir then
          [ Path.mk r (replace_first "src" "tests" dir ++ [file ".test"]);
            Path.mk r (replace_first "src" "tests" dir ++ [file ".spec"]) ]
        else [])) /\
  length (find_matching_tests fp) = (if Str.mem "src" dir then 9 else 7) /\
  find_matching_tests fp <> [] /\
  forall env d f reason,
    file_path_of d = Ok (JStr fp) ->
    stdout (main env (Json d) f) = [block reason] ->
    reason = block_reason (Path.to_string (Path.mk r (dir ++ [file ".test"]))).
Proof.
  intros Hi p r dir file.
  pose proof (find_matching_tests_impl fp Hi) as E.
  cbv zeta in E. fold p in E. fold r dir in E. fold file in E.
  split; [exact E|]. split; [|split].
  - rewrite E. destruct (Str.mem "src" dir); reflexivity.
  - rewrite E. destruct (Str.mem "src" dir); discriminate.
  - intros env d f reason Hd Hout.
    destruct (main_block_inv env (Json d) f reason) as [d' [fp' [Ed H]]].
    { rewrite Hout. left. reflexivity. }
    injection Ed as <-. destruct H as [Hd' [_ [_ [R _]]]].
    rewrite Hd in Hd'. injection Hd' as <-.
    rewrite E in R. exact R.
Qed.

Lemma C3_candidates_in_order_witness :
  find_matching_tests "src/utils/math.ts" =
    ["src/utils/math.test.ts"; "src/utils/math.spec.ts";
     "src/utils/math_test.ts"; "src/utils/math_spec.ts";
     "src/utils/__tests__/math.test.ts"; "src/utils/__tests__/math.spec.ts";
     "src/utils/__tests__/math.ts";
     "tests/utils/math.test.ts"; "tests/utils/math.spec.ts"] /\
  exists reason,
    stdout (main work (Json (request "src/utils/math.ts")) Absent) =
      [block reason] /\
    reason = block_reason "src/utils/math.test.ts".
Proof.
  pose proof (C3_candidates_in_order "src/utils/math.ts" eq_refl) as H.
  cbv zeta in H. destruct H as [E [_ [_ B]]].
  split; [exact E|].
  exists (block_reason "src/utils/math.test.ts").
  split; [reflexivity|].
  exact (B work (request "src/utils/math.ts") Absent
           (block_reason "src/utils/math.test.ts") eq_refl eq_refl).
Defined.

(** An implementation write on a well-shaped store, with the target and
    the candidates resolving. *)
Lemma main_impl_recorded (env : Env) (d : json) (fp : string)
  (f : StoreFile) (l : list string) :
  file_path_of d = Ok (JStr fp) -> is_impl_file fp = true ->
  recorded f = Some l ->
  resolvable env fp = true ->
  forallb (resolvable env) (find_matching_tests fp) = true ->
  main env (Json d) f =
  reply (if existsb (candidate_matches env l) (find_matching_tests fp)
         then allow
         else block (block_reason
                       (suggested_test fp (find_matching_tests fp)))) f.
Proof.
  intros Hd Hi Hl Hr Hc.
  destruct (recorded_inv f l Hl) as [kvs [Hs L]].
  unfold resolvable in Hr.
  destruct (normalize_path env fp) as [np|e] eqn:Hn; [|discriminate Hr].
  rewrite (main_impl env d fp f _ np Hd Hi Hs Hn).
  rewrite (check_impl_recorded env kvs l fp L), (scan_resolvable env l _ Hc).
  cbn [bind]. destruct (existsb _ _); reflexivity.
Qed.

Lemma candidate_matches_iff (env : Env) (l : list string) (c : string) :
  resolvable env c = true ->
  (candidate_matches env l c = true <-> exists m, In m l /\ matches env c m).
Proof.
  unfold candidate_matches, matches, resolvable.
  destruct (normalize_path env c) as [n|e]; [|discriminate]. intros _.
  rewrite orb_true_iff, mem_In. split.
  - intros [H | H].
    + exists n. auto.
    + apply existsb_exists in H as [m [Hm E]]. unfold same_name in E.
      apply String.eqb_eq in E. eauto.
  - intros [m [Hm [E | E]]].
    + left. injection E as ->. exact Hm.
    + right. apply existsb_exists. exists m. split; [exact Hm|].
      unfold same_name. rewrite E. apply String.eqb_refl.
Qed.

(** An implementation write is allowed when a candidate matches a recorded
    path. *)
Lemma impl_allowed (env : Env) (d : json) (fp : string) (f : StoreFile)
  (l : list string) (c m : string) :
  file_path_of d = Ok (JStr fp) -> is_impl_file fp = true ->
  recorded f = Some l ->
  resolvable env fp = true ->
  forallb (resolvable env) (find_matching_tests fp) = true ->
  In c (find_matching_tests fp) -> In m l -> matches env c m ->
  main env (Json d) f = reply allow f.
Proof.
  intros Hd Hi Hl Hr Hcs Hc Hm M.
  rewrite (main_impl_recorded env d fp f l Hd Hi Hl Hr Hcs).
  replace (existsb (candidate_matches env l) (find_matching_tests fp))
    with true; [reflexivity|].
  symmetry. apply existsb_exists. exists c. split; [assumption|].
  apply candidate_matches_iff; [|eauto].
  apply (proj1 (forallb_forall _ _) Hcs c Hc).
Qed.

(** C4, as stated, fails where the path cannot be resolved: for an
    implementation path that holds the code point 0, [Path.resolve] at
    line 148 raises [ValueError]; nothing is printed, although a recorded
    path has the file name of a candidate. *)
Lemma C4_unresolvable_path_raises :
  let fp := ("src/a" ++ nul ++ ".ts")%string in
  let recorded_test := ("/x/a" ++ nul ++ ".test.ts")%string in
  let f := Doc (JObj [(KEY, JArr [JStr recorded_test])]) in
  is_impl_file fp = true /\
  recorded f = Some [recorded_test] /\
  In ("src/a" ++ nul ++ ".test.ts")%string (find_matching_tests fp) /\
  Str.lower (Path.name (Path.of_string recorded_test)) =
  Str.lower (Path.name (Path.of_string ("src/a" ++ nul ++ ".test.ts"))) /\
  main work (Json (request fp)) f = crash ValueError f.
Proof.
  intros fp recorded_test f.
  split; [reflexivity|]. split; [reflexivity|].
  split; [left; reflexivity|]. split; reflexivity.
Qed.

(** C4, amended.  An implementation write whose path and candidate paths
    resolve is allowed as soon as some recorded path has the file name of
    some candidate, case being ignored; the directories of the two paths
    play no part. *)
Theorem C4_file_name_fallback (env : Env) (d : json) (fp : string)
  (f : StoreFile) (l : list string) (m c : string) :
  file_path_of d = Ok (JStr fp) -> is_impl_file fp = true ->
  recorded f = Some l ->
  resolvable env fp = true ->
  forallb (resolvable env) (find_matching_tests fp) = true ->
  In m l -> In c (find_matching_tests fp) ->
  Str.lower (Path.name (Path.of_string m)) =
  Str.lower (Path.name (Path.of_string c)) ->
  main env (Json d) f = reply allow f.
Proof.
  intros Hd Hi Hl Hr Hcs Hm Hc E.
  apply (impl_allowed env d fp f l c m); auto. right. exact E.
Qed.

(** Scenario 3 of the specification, and a test recorded in an unrelated
    directory. *)
Lemma C4_file_name_fallback_witness :
  let after_test :=
    store (main work (Json (request "src/foo/bar.spec.tsx"))
             (store (SessionStart.main Absent))) in
  let elsewhere :=
    Doc (JObj [(KEY, JArr [JStr "/srv/legacy/old/BAR.SPEC.tsx"])]) in
  main work (Json (request "src/foo/Bar.tsx")) after_test =
    reply allow after_test /\
  main work (Json (request "src/foo/Bar.tsx")) elsewhere =
    reply allow elsewhere.
Proof.
  intros after_test elsewhere. split.
  - exact (C4_file_name_fallback work (request "src/foo/Bar.tsx")
             "src/foo/Bar.tsx" after_test ["/work/src/foo/bar.spec.tsx"]
             "/work/src/foo/bar.spec.tsx" "src/foo/Bar.spec.tsx"
             eq_refl eq_refl eq_refl eq_refl eq_refl
             (or_introl eq_refl) (or_intror (or_introl eq_refl)) eq_refl).
  - exact (C4_file_name_fallback work (request "src/foo/Bar.tsx")
             "src/foo/Bar.tsx" elsewhere ["/srv/legacy/old/BAR.SPEC.tsx"]
             "/srv/legacy/old/BAR.SPEC.tsx" "src/foo/Bar.spec.tsx"
             eq_refl eq_refl eq_refl eq_refl eq_refl
             (or_introl eq_refl) (or_intror (or_introl eq_refl)) eq_refl).
Defined.

(** A test write on a well-shaped, writable store with the path
    resolving. *)
Lemma main_test_recorded (env : Env) (d : json) (fp : string)
  (f : StoreFile) (l : list string) (np : string) :
  file_path_of d = Ok (JStr fp) -> is_test_file fp = true ->
  recorded f = Some l -> writable f = true ->
  normalize_path env fp = Ok np ->
  exists f',
    main env (Json d) f = reply allow f' /\
    recorded f' = Some (record_path l np) /\
    writable f' = true /\
    (Str.mem np l = true -> f' = f).
Proof.
  intros Hd Ht Hl W Hn.
  destruct (recorded_inv f l Hl) as [kvs [Hs L]].
  rewrite (main_test env d fp f _ np Hd Ht Hs Hn).
  destruct (write_test_recorded f l kvs np Hs L W)
    as [f' [E [R [W' [K _]]]]].
  exists f'. auto.
Qed.






(** The store an invocation leaves: the one it found, or, for a test
    path, the document with the path appended. *)
Lemma main_store (env : Env) (stdin : Stdin) (f : StoreFile) :
  store (main env stdin f) = f \/
  exists d fp state np state',
    stdin = Json d /\ file_path_of d = Ok (JStr fp) /\
    is_test_file fp = true /\ load_state f = Ok state /\
    normalize_path env fp = Ok np /\
    record_test state np = Ok (Some state') /\ writable f = true /\
    main env stdin f = reply allow (Doc state').
Proof.
  unfold main. destruct stdin as [|x|d]; [left; reflexivity ..|].
  destruct (file_path_of d) as [v|e] eqn:Hd; [|left; reflexivity].
  destruct (negb (Py.truthy v)); [left; reflexivity|].
  destruct (load_state f) as [state|e] eqn:Hs; [|left; reflexivity].
  destruct v as [| | |fp| |]; try (left; reflexivity).
  destruct (normalize_path env fp) as [np|e] eqn:Hn; [|left; reflexivity].
  destruct (is_test_file fp) eqn:T.
  - unfold write_test, save_state.
    destruct (record_test state np) as [[st|]|e] eqn:R;
      try (left; reflexivity).
    destruct (writable f) eqn:W; [|left; reflexivity].
    right. exists d, fp, state, np, st. repeat split; auto.
  - destruct (negb (is_impl_file fp)); [left; reflexivity|].
    destruct (check_impl env state fp); left; reflexivity.
Qed.


(** One invocation on a well-shaped store: the recorded list stays, or
    the normalized path of the requested test, which was not listed, is
    appended. *)
Lemma main_recorded_step (env : Env) (stdin : Stdin) (f : StoreFile)
  (l : list string) :
  recorded f = Some l ->
  recorded (store (main env stdin f)) = Some l \/
  exists np,
    requested_test (env, stdin) = Some np /\ Str.mem np l = false /\
    writable f = true /\
    recorded (store (main env stdin f)) = Some (l ++ [np]).
Proof.
  intros Hl.
  destruct (main_store env stdin f)
    as [-> | [d [fp [state [np [st [-> [Hd [Ht [Hs [Hn [R [W ->]]]]]]]]]]]]];
    [left; exact Hl|].
  cbn [store reply].
  destruct (recorded_inv f l Hl) as [kvs [Hs' L]].
  rewrite Hs in Hs'. injection Hs' as ->.
  destruct (record_test_recorded kvs l np L) as [R' Hrec].
  rewrite R in R'. destruct (Str.mem np l) eqn:M; [discriminate R'|].
  injection R' as ->. right. exists np.
  split; [|split; [exact M|split; [exact W|exact Hrec]]].
  unfold requested_test. cbn [fst snd]. rewrite Hd, Ht, Hn. reflexivity.
Qed.





(** On a store that records nothing every implementation write that
    resolves is blocked. *)
Lemma impl_blocked_on_empty (env : Env) (d : json) (fp : string)
  (f : StoreFile) :
  file_path_of d = Ok (JStr fp) -> is_impl_file fp = true ->
  recorded f = Some [] ->
  resolvable env fp = true ->
  forallb (resolvable env) (find_matching_tests fp) = true ->
  main env (Json d) f =
  reply (block (block_reason (suggested_test fp (find_matching_tests fp)))) f.
Proof.
  intros Hd Hi Hl Hr Hcs.
  rewrite (main_impl_recorded env d fp f [] Hd Hi Hl Hr Hcs).
  replace (existsb (candidate_matches env []) (find_matching_tests fp))
    with false; [reflexivity|].
  symmetry. apply existsb_false_iff. intros c _.
  unfold candidate_matches. destruct (normalize_path env c); reflexivity.
Qed.

(** C7, as stated, fails: the reset does not overwrite the store
    unconditionally.  Where the store path is a directory, or the file or
    its directory cannot be written, [mkdir] or [write_text] raises
    [OSError]; the hook ends with it, prints nothing and the store stays
    as it was.  And after a reset an implementation write whose path
    holds the code point 0 is not blocked: it ends with [ValueError]. *)
Lemma C7_reset_can_raise :
  let f := Unwritable (Doc (JObj [(KEY, JArr [JStr "/work/src/a.test.ts"])])) in
  SessionStart.main (Unwritable Unreadable) =
    crash OSError (Unwritable Unreadable) /\
  SessionStart.main f = crash OSError f /\
  recorded (store (SessionStart.main f)) = Some ["/work/src/a.test.ts"] /\
  let g := store (SessionStart.main Absent) in
  is_impl_file ("src/a" ++ nul ++ ".ts") = true /\
  main work (Json (request ("src/a" ++ nul ++ ".ts"))) g = crash ValueError g.
Proof. repeat split; reflexivity. Qed.

(** C7, amended.  On a store that can be written the reset hook,
    whatever the store file was (missing included), leaves the document
    with an empty [test_files_modified] list and null [session_id] and
    [started_at]; running it again changes nothing; and on the store it
    leaves every implementation write whose path and candidate paths
    resolve is blocked, with the first candidate as the suggested test,
    whatever had been recorded before. *)
Theorem C7_reset_law (f : StoreFile) :
  writable f = true ->
  let reset := SessionStart.main f in
  raised reset = None /\
  store reset =
    Doc (JObj [(KEY, JArr []); ("session_id", JNull); ("started_at", JNull)]) /\
  recorded (store reset) = Some [] /\
  SessionStart.main (store reset) = reset /\
  forall env d fp,
    file_path_of d = Ok (JStr fp) -> is_impl_file fp = true ->
    resolvable env fp = true ->
    forallb (resolvable env) (find_matching_tests fp) = true ->
    exists first rest,
      find_matching_tests fp = first :: rest /\
      main env (Json d) (store reset) =
      reply (block (block_reason first)) (store reset).
Proof.
  intros W reset. unfold reset, SessionStart.main, save_state. rewrite W.
  cbn [raised store reply writable].
  repeat split; try reflexivity.
  intros env d fp Hd Hi Hr Hcs.
  destruct (find_matching_tests_first fp) as [rest E].
  eexists. exists rest. split; [exact E|].
  rewrite (impl_blocked_on_empty env d fp (Doc SessionStart.initial_state)
             Hd Hi eq_refl Hr Hcs).
  rewrite E. reflexivity.
Qed.

(** A test is recorded and the implementation write allowed; after the
    reset the same write is blocked. *)
Lemma C7_reset_law_witness :
  let before := store (main work (Json (request "src/utils/math.test.ts")) Absent) in
  let after := store (SessionStart.main before) in
  main work (Json (request "src/utils/math.ts")) before = reply allow before /\
  main work (Json (request "src/utils/math.ts")) after =
    reply (block (block_reason "src/utils/math.test.ts")) after.
Proof.
  intros before after. split; [reflexivity|].
  destruct (C7_reset_law before eq_refl) as [_ [_ [_ [_ H]]]].
  destruct (H work (request "src/utils/math.ts") "src/utils/math.ts"
              eq_refl eq_refl eq_refl eq_refl) as [first [rest [E M]]].
  injection E as <- _. exact M.
Defined.

(** C8, as stated, fails.  On the bytes: what is printed has a space
    after the colon and ends with a newline.  And on the crash: input
    that is not UTF-8 text, or that nests deeper than the recursion
    limit, is not valid JSON either, but [json.load] rejects it with
    [UnicodeDecodeError] or [RecursionError], which line 134 does not
    catch; the process ends with the exception and prints nothing. *)
Lemma C8_output_is_not_the_compact_text :
  stdout_text (main work NotJson Absent) <> compact_allow /\
  main work (Unparsed NotText) Absent = crash UnicodeDecodeError Absent /\
  main work (Unparsed TooDeep) Absent = crash RecursionError Absent /\
  stdout_text (main work (Unparsed NotText) Absent) = EmptyString.
Proof.
  split; [vm_compute; discriminate|]. repeat split; reflexivity.
Qed.

(** C8, amended.  When [json.load] rejects the input with
    [JSONDecodeError], the process ends without an exception, leaves the
    store alone, and its whole output is the one line that [json.dumps]
    makes of the object with the single member decision = allow: the text
    [allow_line], with a space after the colon and a newline at the end.
    When [json.load] rejects the input with another exception, the
    process ends with that exception, prints nothing and leaves the store
    alone. *)
Theorem C8_malformed_input_allows (env : Env) (f : StoreFile) :
  main env NotJson f = reply allow f /\
  raised (main env NotJson f) = None /\
  stdout_text (main env NotJson f) = allow_line /\
  forall x : fault,
    raised (main env (Unparsed x) f) = Some (fault_exn x) /\
    stdout_text (main env (Unparsed x) f) = EmptyString /\
    store (main env (Unparsed x) f) = f.
Proof. repeat split. Qed.







(** C10.  The outcome is not fixed by the request and the store.  On one
    file system, whose only symbolic link is /proj/a/math.test.ts, the same
    request for the relative test path math.test.ts on the same store
    records /shared/checks.ts from the working directory /proj/a and
    /proj/b/math.test.ts from /proj/b; and the same request for the
    relative implementation path math.ts on the same store is allowed from
    /proj/a and blocked from /proj/b. *)
Theorem C10_outcome_depends_on_working_directory :
  realpath Cwd.in_a = realpath Cwd.in_b /\
  cwd Cwd.in_a <> cwd Cwd.in_b /\
  recorded (store (main Cwd.in_a (Json (request "math.test.ts")) Absent)) =
    Some ["/shared/checks.ts"] /\
  recorded (store (main Cwd.in_b (Json (request "math.test.ts")) Absent)) =
    Some ["/proj/b/math.test.ts"] /\
  let f := store (main Cwd.in_a (Json (request "math.test.ts")) Absent) in
  is_impl_file "math.ts" = true /\
  main Cwd.in_a (Json (request "math.ts")) f = reply allow f /\
  main Cwd.in_b (Json (request "math.ts")) f =
    reply (block (block_reason "math.test.ts")) f.
Proof.
  split; [reflexivity|]. split; [discriminate|].
  split; [reflexivity|]. split; [reflexivity|].
  intros f. repeat split.
Qed.

(** ** Worked examples *)

Example split_ex :
  Str.split Str.slash "src//utils/./math.ts" =
  ["src"; EmptyString; "utils"; "."; "math.ts"].
Proof. reflexivity. Qed.

Example of_string_ex :
  Path.of_string "/src//utils/./math.ts" =
  Path.mk "/" ["src"; "utils"; "math.ts"].
Proof. reflexivity. Qed.

Example suffix_ex :
  Path.suffix (Path.of_string "a/b.test.ts") = ".ts" /\
  Path.stem (Path.of_string "a/b.test.ts") = "b.test" /\
  Path.suffix (Path.of_string "a/.bashrc") = EmptyString /\
  Path.suffix (Path.of_string "a/b.") = EmptyString.
Proof. repeat split; reflexivity. Qed.

Example classify_ex :
  map classify ["tsconfig.json"; "vite.config.ts"; "src/a.ts"; "src/a.test.ts";
                "tests/a.json"; "README.md"; "types.d.ts"] =
  [Ignored; Config; Implementation; Test; Test; Ignored; Config].
Proof. reflexivity. Qed.

(** Scenarios 1, 2 and 4 of the specification. *)
Example scenario_1 :
  let f := store (main work (Json (request "src/utils/math.test.ts")) Absent) in
  main work (Json (request "src/utils/math.ts")) f = reply allow f.
Proof. reflexivity. Qed.

Example scenario_2 :
  main work (Json (request "src/utils/math.ts")) Absent =
  reply (block (block_reason "src/utils/math.test.ts")) Absent.
Proof. reflexivity. Qed.

Example scenario_4 :
  main work (Json (request "tsconfig.json")) Absent = reply allow Absent.
Proof. reflexivity. Qed.

(** Requests and stores of other shapes. *)
Example request_shapes :
  main work (Json (JObj [])) Absent = reply allow Absent /\
  main work (Json (JArr [])) Absent = crash AttributeError Absent /\
  main work (Json (request EmptyString)) Absent = reply allow Absent /\
  main work (Json (JObj [("tool_input", JObj [("file_path", JNum 7)])])) Absent =
    crash TypeError Absent /\
  main work (Json (request "src/a.ts")) (Doc (JArr [])) =
    crash AttributeError (Doc (JArr [])) /\
  main work (Json (request "src/a.ts")) (Doc (JObj [])) =
    reply (block (block_reason "src/a.test.ts")) (Doc (JObj [])) /\
  main work (Json (request "src/a.test.ts")) Corrupt =
    reply allow (Doc (JObj [(KEY, JArr [JStr "/work/src/a.test.ts"]);
                            ("session_id", JNull)])).
Proof. repeat split. Qed.


(** ** Further properties of the enforcer *)

(** X1.  Every candidate of an implementation path is itself a test path
    for [is_test_file] and no implementation path for [is_impl_file]: the
    write of a suggested file is never blocked, and it is recorded. *)
Theorem candidates_are_test_files (fp c : string) :
  is_impl_file fp = true -> In c (find_matching_tests fp) ->
  is_test_file c = true /\ is_impl_file c = false /\ classify c = Test.
Proof.
  intros Hi Hc. pose proof (candidate_is_test fp c Hi Hc) as T.
  split; [exact T|]. split; [apply test_not_impl, T|].
  unfold classify. rewrite T. reflexivity.
Qed.

Lemma candidates_are_test_files_witness :
  is_test_file "src/utils/__tests__/math.ts" = true /\
  is_impl_file "src/utils/__tests__/math.ts" = false /\
  classify "src/utils/__tests__/math.ts" = Test.
Proof.
  apply (candidates_are_test_files "src/utils/math.ts"
           "src/utils/__tests__/math.ts" eq_refl).
  simpl. auto 10.
Defined.



(** X3.  On a well-shaped store an implementation write whose path and
    candidate paths resolve has exactly two outcomes, Allow or Block with
    the first candidate as suggestion, and no exception; it is allowed
    exactly when some candidate matches some recorded path, exactly once
    normalized or by lower-cased file name.  The store is not touched
    either way. *)
Theorem impl_write_allowed_iff_match (env : Env) (d : json) (fp : string)
  (f : StoreFile) (l : list string) :
  file_path_of d = Ok (JStr fp) -> is_impl_file fp = true ->
  recorded f = Some l ->
  resolvable env fp = true ->
  forallb (resolvable env) (find_matching_tests fp) = true ->
  (main env (Json d) f = reply allow f \/
   exists first rest,
     find_matching_tests fp = first :: rest /\
     main env (Json d) f = reply (block (block_reason first)) f) /\
  (main env (Json d) f = reply allow f <->
   exists c m, In c (find_matching_tests fp) /\ In m l /\ matches env c m).
Proof.
  intros Hd Hi Hl Hr Hcs.
  rewrite (main_impl_recorded env d fp f l Hd Hi Hl Hr Hcs).
  destruct (find_matching_tests_first fp) as [rest E].
  destruct (existsb (candidate_matches env l) (find_matching_tests fp)) eqn:X.
  - split; [left; reflexivity|]. split; [|reflexivity]. intros _.
    apply existsb_exists in X as [c [Hc M]].
    apply candidate_matches_iff in M as [m [Hm M]];
      [eauto | apply (proj1 (forallb_forall _ _) Hcs c Hc)].
  - split.
    + right. eexists. exists rest. split; [exact E|]. rewrite E. reflexivity.
    + split.
      * intros H. exfalso. injection H as H.
        discriminate H.
      * intros [c [m [Hc [Hm M]]]]. exfalso.
        assert (C : candidate_matches env l c = true).
        { apply candidate_matches_iff;
            [apply (proj1 (forallb_forall _ _) Hcs c Hc) | eauto]. }
        rewrite (proj1 (existsb_false_iff _ _) X c Hc) in C. discriminate C.
Qed.

Lemma impl_write_allowed_iff_match_witness :
  let f := Doc (JObj [(KEY, JArr [JStr "/work/src/ui/card.test.tsx"])]) in
  main work (Json (request "src/utils/math.ts")) f =
    reply (block (block_reason "src/utils/math.test.ts")) f /\
  ~ exists c m, In c (find_matching_tests "src/utils/math.ts") /\
                In m ["/work/src/ui/card.test.tsx"] /\ matches work c m.
Proof.
  intros f.
  destruct (impl_write_allowed_iff_match work (request "src/utils/math.ts")
              "src/utils/math.ts" f ["/work/src/ui/card.test.tsx"]
              eq_refl eq_refl eq_refl eq_refl eq_refl) as [_ H].
  split; [reflexivity|].
  intros M. apply H in M. discriminate M.
Defined.



(** X5.  Whatever the store file holds, a Block is only ever printed for
    an implementation path: then it is the only document printed, the
    store is left as it was, and the reason suggests the first candidate. *)
Theorem block_only_for_implementation (env : Env) (stdin : Stdin)
  (f : StoreFile) (reason : string) :
  In (block reason) (stdout (main env stdin f)) ->
  exists d fp first rest,
    stdin = Json d /\ file_path_of d = Ok (JStr fp) /\
    is_impl_file fp = true /\ is_test_file fp = false /\
    find_matching_tests fp = first :: rest /\
    main env stdin f = reply (block (block_reason first)) f.
Proof.
  intros H.
  destruct (main_block_inv env stdin f reason H)
    as [d [fp [E [Hd [Hi [Ht [R M]]]]]]].
  destruct (find_matching_tests_first fp) as [rest F].
  rewrite F in R. cbn [suggested_test] in R. subst reason.
  exists d, fp. eexists. exists rest.
  split; [exact E|]. split; [exact Hd|]. split; [exact Hi|].
  split; [exact Ht|]. split; [exact F | exact M].
Qed.

Lemma block_only_for_implementation_witness :
  exists d fp first rest,
    Json (request "src/a.ts") = Json d /\ file_path_of d = Ok (JStr fp) /\
    is_impl_file fp = true /\ is_test_file fp = false /\
    find_matching_tests fp = first :: rest /\
    main work (Json (request "src/a.ts")) Corrupt =
      reply (block (block_reason first)) Corrupt.
Proof.
  apply (block_only_for_implementation work (Json (request "src/a.ts"))
           Corrupt (block_reason "src/a.test.ts")).
  left. reflexivity.
Defined.

(** X6.  A request whose [file_path] is missing, empty or otherwise falsy
    is answered Allow at line 142 whatever the store file holds, even
    bytes that [load_state] cannot decode.  A request for a path that is
    neither a test nor an implementation path (a configuration file such
    as vite.config.ts included) passes [load_state] and [Path.resolve]
    first: it ends with the exception of the first of the two that
    raises, and is answered Allow when neither does, whatever the shape
    of the loaded document.  The store is not touched in any case. *)
Theorem other_writes_are_never_blocked (env : Env) (d v : json)
  (f : StoreFile) :
  file_path_of d = Ok v ->
  (Py.truthy v = false -> main env (Json d) f = reply allow f) /\
  (forall fp, v = JStr fp -> fp <> EmptyString ->
     is_test_file fp = false -> is_impl_file fp = false ->
     main env (Json d) f =
     match load_state f with
     | Raise e => crash e f
     | Ok _ =>
         match normalize_path env fp with
         | Raise e => crash e f
         | Ok _ => reply allow f
         end
     end).
Proof.
  intros Hd. unfold main. rewrite Hd. split.
  - intros H. rewrite H. reflexivity.
  - intros fp -> Hne T I. destruct fp as [|c r]; [congruence|].
    cbn [Py.truthy Str.is_empty negb].
    destruct (load_state f) as [state|e]; [|reflexivity].
    destruct (normalize_path env (String c r)) as [np|e]; [|reflexivity].
    rewrite T, I. reflexivity.
Qed.

Lemma other_writes_are_never_blocked_witness :
  main work (Json (request "vite.config.ts")) (Doc (JArr [])) =
    reply allow (Doc (JArr [])) /\
  main work (Json (request "README.md")) (Broken NotText) =
    crash UnicodeDecodeError (Broken NotText) /\
  main work (Json (JObj [("tool_input", JObj [("file_path", JNull)])]))
       (Broken NotText) = reply allow (Broken NotText) /\
  main work (Json (JObj [("tool_name", JStr "Write")])) (Doc (JObj [])) =
    reply allow (Doc (JObj [])).
Proof.
  split; [|split; [|split]].
  - apply (proj2 (other_writes_are_never_blocked work
                    (request "vite.config.ts") (JStr "vite.config.ts")
                    (Doc (JArr [])) eq_refl) "vite.config.ts" eq_refl);
      [discriminate | reflexivity | reflexivity].
  - apply (proj2 (other_writes_are_never_blocked work
                    (request "README.md") (JStr "README.md")
                    (Broken NotText) eq_refl) "README.md" eq_refl);
      [discriminate | reflexivity | reflexivity].
  - apply (proj1 (other_writes_are_never_blocked work
                    (JObj [("tool_input", JObj [("file_path", JNull)])])
                    JNull (Broken NotText) eq_refl)).
    reflexivity.
  - apply (proj1 (other_writes_are_never_blocked work
                    (JObj [("tool_name", JStr "Write")]) (JStr EmptyString)
                    (Doc (JObj [])) eq_refl)).
    reflexivity.
Defined.



(** X8.  On a well-shaped store that can be written, and when every path
    the invocation resolves does resolve, the only exceptions that escape
    [main] come from the input alone: what [json.load] raises apart from
    [JSONDecodeError], [AttributeError] when the request or its
    [tool_input] is not an object, [TypeError] when [file_path] is a
    truthy value that is no str.  Then nothing is printed and the store
    is untouched; every other invocation prints exactly one document. *)
Theorem exceptions_come_from_the_request (env : Env) (stdin : Stdin)
  (f : StoreFile) (l : list string) :
  recorded f = Some l -> writable f = true ->
  paths_resolve env stdin = true ->
  raised (main env stdin f) = request_error stdin /\
  (request_error stdin = None ->
   exists response, stdout (main env stdin f) = [response]) /\
  (request_error stdin <> None ->
   stdout (main env stdin f) = [] /\ store (main env stdin f) = f).
Proof.
  intros Hl W P.
  destruct (recorded_inv f l Hl) as [kvs [Hs L]].
  assert (Good : forall o : Outcome,
            raised o = None -> (exists response, stdout o = [response]) ->
            raised o = None /\
            (@None exn = None -> exists response, stdout o = [response]) /\
            (@None exn <> None -> stdout o = [] /\ store o = f)).
  { intros o H1 H2. split; [exact H1|]. split; [auto|].
    intros H. now elim H. }
  assert (Bad : forall e,
            raised (crash e f) = Some e /\
            (Some e = None -> exists response, stdout (crash e f) = [response]) /\
            (Some e <> None ->
             stdout (crash e f) = [] /\ store (crash e f) = f)).
  { intros e. split; [reflexivity|]. split; [discriminate | auto]. }
  unfold main, request_error, paths_resolve in *.
  destruct stdin as [|x|d].
  { apply Good; [reflexivity | eexists; reflexivity]. }
  { apply Bad. }
  destruct (file_path_of d) as [v|e]; [|apply Bad].
  destruct (negb (Py.truthy v)) eqn:Tr.
  { apply Good; [reflexivity | eexists; reflexivity]. }
  rewrite Hs.
  destruct v as [| | |fp| |]; try apply Bad.
  destruct fp as [|c r]; [discriminate Tr|].
  cbn [Str.is_empty orb] in P. apply andb_true_iff in P as [Pr Pc].
  unfold resolvable in Pr.
  destruct (normalize_path env (String c r)) as [np|e]; [|discriminate Pr].
  destruct (is_test_file (String c r)).
  - destruct (write_test_recorded f l kvs np Hs L W) as [f' [-> _]].
    apply Good; [reflexivity | eexists; reflexivity].
  - destruct (is_impl_file (String c r)); cbn [negb orb] in *.
    2:{ apply Good; [reflexivity | eexists; reflexivity]. }
    rewrite (check_impl_recorded env kvs l _ L), (scan_resolvable env l _ Pc).
    cbn [bind].
    destruct (existsb _ _);
      (apply Good; [reflexivity | eexists; reflexivity]).
Qed.

Lemma exceptions_come_from_the_request_witness :
  raised (main work (Json (JArr [])) Absent) = Some AttributeError /\
  raised (main work (Json (JObj [("tool_input", JStr "x")])) Absent) =
    Some AttributeError /\
  raised (main work (Json (JObj [("tool_input",
                                  JObj [("file_path", JNum 1)])])) Absent) =
    Some TypeError /\
  raised (main work (Unparsed TooDeep) Absent) = Some RecursionError /\
  raised (main work (Json (request "src/a.ts")) Absent) = None.
Proof.
  split; [|split; [|split; [|split]]].
  - exact (proj1 (exceptions_come_from_the_request work (Json (JArr []))
                    Absent [] eq_refl eq_refl eq_refl)).
  - exact (proj1 (exceptions_come_from_the_request work
                    (Json (JObj [("tool_input", JStr "x")])) Absent []
                    eq_refl eq_refl eq_refl)).
  - exact (proj1 (exceptions_come_from_the_request work
                    (Json (JObj [("tool_input", JObj [("file_path", JNum 1)])]))
                    Absent [] eq_refl eq_refl eq_refl)).
  - exact (proj1 (exceptions_come_from_the_request work
                    (Unparsed TooDeep) Absent [] eq_refl eq_refl eq_refl)).
  - exact (proj1 (exceptions_come_from_the_request work
                    (Json (request "src/a.ts")) Absent [] eq_refl eq_refl
                    eq_refl)).
Defined.

(** ** The recorded list over a session *)





(** ** The text on stdout *)

(** What [main] prints: nothing, the allow document, or a block document. *)
Lemma main_prints (env : Env) (stdin : Stdin) (f : StoreFile) :
  (stdout (main env stdin f) = [] /\ raised (main env stdin f) <> None) \/
  (raised (main env stdin f) = None /\
   (stdout (main env stdin f) = [allow] \/
    exists reason, stdout (main env stdin f) = [block reason])).
Proof.
  unfold main. destruct stdin as [|x|d]; [right; auto| |].
  { left. split; [reflexivity|discriminate]. }
  destruct (file_path_of d) as [v|e]; [|left; split; [reflexivity|discriminate]].
  destruct (negb (Py.truthy v)); [right; auto|].
  destruct (load_state f) as [state|e];
    [|left; split; [reflexivity|discriminate]].
  destruct v as [| | |fp| |];
    try (left; split; [reflexivity|discriminate]).
  destruct (normalize_path env fp) as [np|e];
    [|left; split; [reflexivity|discriminate]].
  destruct (is_test_file fp).
  - unfold write_test.
    destruct (record_test state np) as [[st|]|e];
      [|right; auto | left; split; [reflexivity|discriminate]].
    destruct (save_state st f) as [f'|e];
      [right; auto | left; split; [reflexivity|discriminate]].
  - destruct (negb (is_impl_file fp)); [right; auto|].
    destruct (check_impl env state fp) as [resp|e] eqn:C;
      [|left; split; [reflexivity|discriminate]].
    right. split; [reflexivity|].
    apply check_impl_response in C as [-> | ->]; [left | right; eexists];
      reflexivity.
Qed.

(** X10.  For every request and every store file, what the enforcer writes
    to stdout is either nothing, when an exception ends the process, or
    exactly one line: printable ASCII (no raw newline, control or non-ASCII
    character, whatever the file path in the reason holds) followed by one
    newline. *)
Theorem stdout_is_one_ascii_line (env : Env) (stdin : Stdin) (f : StoreFile) :
  (raised (main env stdin f) <> None /\
   stdout_text (main env stdin f) = EmptyString) \/
  (raised (main env stdin f) = None /\
   exists line,
     stdout_text (main env stdin f) = (line ++ nl)%string /\
     printable line = true).
Proof.
  unfold stdout_text.
  destruct (main_prints env stdin f) as [[E R] | [R [E | [reason E]]]];
    rewrite E.
  - left. split; [exact R | reflexivity].
  - right. split; [exact R|]. exists (Dumps.dumps allow).
    split; reflexivity.
  - right. split; [exact R|]. exists (Dumps.dumps (block reason)).
    split; [reflexivity | apply dumps_block_printable].
Qed.

(** ** More about two invocations on one store *)

Lemma holds_only_loaded (P : string -> Prop) (f : StoreFile) :
  holds_only P f ->
  exists state, load_state f = Ok state /\ holds_only P (Doc state).
Proof.
  intros [l [Hl Hp]]. destruct (recorded_inv f l Hl) as [kvs [Hs L]].
  exists (JObj kvs). split; [exact Hs|]. exists l.
  split; [apply recorded_doc, L | exact Hp].
Qed.

Lemma step_holds_only (P : string -> Prop) (p : Race.proc) (f : StoreFile) :
  proc_holds_only P p -> holds_only P f ->
  proc_holds_only P (fst (Race.step p f)) /\
  holds_only P (snd (Race.step p f)).
Proof.
  intros Hp Hf. destruct p as [env fp | env fp st | st | r]; cbn [Race.step].
  - destruct (holds_only_loaded P f Hf) as [state [-> Hst]].
    cbn [fst snd proc_holds_only]. auto.
  - cbn [proc_holds_only] in Hp. destruct Hp as [[ls [Hls Hin]] Hnp].
    destruct (normalize_path env fp) as [np|e]; [|cbn; auto].
    destruct (recorded_inv _ ls Hls) as [kvs [Hs L]].
    cbn [load_state] in Hs. injection Hs as ->.
    destruct (record_test_recorded kvs ls np L) as [-> Hrec].
    destruct (Str.mem np ls); [cbn; auto|].
    destruct (writable f); [|cbn; auto].
    cbn [fst snd proc_holds_only]. split.
    + eexists. split; [exact Hrec|]. intros x Hx.
      apply in_app_or in Hx as [Hx | [<- | []]]; auto.
    + exists []. split; [reflexivity|]. intros x [].
  - cbn [fst snd proc_holds_only] in *. auto.
  - cbn [fst snd]. auto.
Qed.

Lemma run_holds_only (P : string -> Prop) (schedule : list Race.turn)
  (p1 p2 : Race.proc) (f : StoreFile) :
  proc_holds_only P p1 -> proc_holds_only P p2 -> holds_only P f ->
  holds_only P (Race.run schedule p1 p2 f).
Proof.
  revert p1 p2 f.
  induction schedule as [|[|] rest IH]; intros p1 p2 f H1 H2 Hf;
    cbn [Race.run]; [exact Hf | |].
  - destruct (step_holds_only P p1 f H1 Hf) as [A B].
    destruct (Race.step p1 f) as [p1' f']. apply IH; assumption.
  - destruct (step_holds_only P p2 f H2 Hf) as [A B].
    destruct (Race.step p2 f) as [p2' f']. apply IH; assumption.
Qed.

(** X11.  Two invocations for test paths on one well-shaped store, their
    steps (load, emptying of the file, write) taken in any order: the
    store stays well-shaped and lists nothing but paths recorded before
    and the normalized paths of the two requests.  Paths can be lost, an
    earlier one included, when one invocation loads the file while the
    other has emptied it. *)
Theorem race_records_only_requested_paths (schedule : list Race.turn)
  (env1 env2 : Env) (fp1 fp2 : string) (f : StoreFile) (l : list string) :
  recorded f = Some l ->
  exists l',
    recorded (Race.run schedule (Race.Start env1 fp1) (Race.Start env2 fp2) f)
      = Some l' /\
    forall x, In x l' ->
      In x l \/ normalize_path env1 fp1 = Ok x \/ normalize_path env2 fp2 = Ok x.
Proof.
  intros Hl.
  apply (run_holds_only
           (fun x => In x l \/ normalize_path env1 fp1 = Ok x \/
                     normalize_path env2 fp2 = Ok x)
           schedule (Race.Start env1 fp1) (Race.Start env2 fp2) f).
  - cbn [proc_holds_only]. auto.
  - cbn [proc_holds_only]. auto.
  - exists l. split; [exact Hl | auto].
Qed.

Lemma race_records_only_requested_paths_witness :
  let f := Doc (JObj [(KEY, JArr [JStr "/work/src/old.test.ts"])]) in
  let p1 := Race.Start work "src/a.test.ts" in
  let p2 := Race.Start work "src/b.test.ts" in
  recorded (Race.run Race.in_the_gap p1 p2 f) = Some ["/work/src/b.test.ts"] /\
  exists l',
    recorded (Race.run Race.in_the_gap p1 p2 f) = Some l' /\
    forall x, In x l' ->
      In x ["/work/src/old.test.ts"] \/
      normalize_path work "src/a.test.ts" = Ok x \/
      normalize_path work "src/b.test.ts" = Ok x.
Proof.
  intros f p1 p2. split; [reflexivity|].
  apply (race_records_only_requested_paths Race.in_the_gap work work
           "src/a.test.ts" "src/b.test.ts" f ["/work/src/old.test.ts"]
           eq_refl).
Defined.

(** ** File systems that keep file names *)

Lemma has_nul_app (a b : string) :
  Str.has_nul (a ++ b) = Str.has_nul a || Str.has_nul b.
Proof.
  induction a as [|c r IH]; simpl; [reflexivity|].
  rewrite IH, orb_assoc. reflexivity.
Qed.

Lemma existsb_false_Forall {A} (p : A -> bool) (l : list A) :
  existsb p l = false <-> Forall (fun x => p x = false) l.
Proof.
  rewrite existsb_false_iff, Forall_forall. reflexivity.
Qed.

Lemma replace_first_Forall (Q : string -> Prop) (x y : string)
  (l : list string) :
  Q y -> Forall Q l -> Forall Q (replace_first x y l).
Proof.
  intros Hy H. induction H as [|c l Hc Hl IH]; simpl; [constructor|].
  destruct (String.eqb x c); constructor; assumption.
Qed.

(** The components of a candidate are components of the implementation
    path, the directory names "__tests__" and "tests", the file name and
    its infix variants. *)
Lemma candidate_tail_forall (Q : string -> Prop) (fp c : string) :
  is_impl_file fp = true -> In c (find_matching_tests fp) ->
  let p := Path.of_string fp in
  Forall Q (Path.tail p) -> Q "__tests__" -> Q "tests" ->
  (forall i, In i infixes -> Q (Path.stem p ++ i ++ Path.suffix p)%string) ->
  Forall Q (Path.tail (Path.of_string c)).
Proof.
  intros Hi Hc p Qt Q1 Q2 Qv.
  destruct (impl_parts_simple fp Hi) as [Hr [Hd [Hn [Hv Hx]]]].
  fold p in Hr, Hd, Hn, Hv, Hx.
  rewrite (find_matching_tests_impl fp Hi) in Hc. cbv zeta in Hc. fold p in Hc.
  set (dir := removelast (Path.tail p)) in *.
  assert (Qd : Forall Q dir) by (apply Forall_removelast, Qt).
  assert (Qn : Q (Path.name p)).
  { apply (Forall_last Q); [exact Qt | apply impl_named, Hi]. }
  assert (Ht : Forall simple (dir ++ ["__tests__"])).
  { apply Forall_snoc; [exact Hd | exact simple_tests_dir]. }
  assert (Qtd : Forall Q (dir ++ ["__tests__"])).
  { apply Forall_snoc; assumption. }
  assert (Hm : Forall simple (replace_first "src" "tests" dir)).
  { apply replace_first_simple; [exact simple_tests | exact Hd]. }
  assert (Qm : Forall Q (replace_first "src" "tests" dir)).
  { apply replace_first_Forall; assumption. }
  assert (I1 : In ".test" infixes) by (simpl; auto).
  assert (I2 : In ".spec" infixes) by (simpl; auto).
  assert (I3 : In "_test" infixes) by (simpl; auto).
  assert (I4 : In "_spec" infixes) by (simpl; auto 10).
  assert (V : forall pre x, Forall simple pre -> simple x ->
              Forall Q pre -> Q x ->
              Forall Q (Path.tail (Path.of_string
                 (Path.to_string (Path.mk (Path.root p) (pre ++ [x])))))).
  { intros pre x Hpre Hsx Qpre Qx.
    rewrite (of_string_to_string _ _ Hr (Forall_snoc _ _ _ Hpre Hsx)).
    cbn [Path.tail]. apply Forall_snoc; assumption. }
  assert (W : forall x, dir ++ ["__tests__"; x] = (dir ++ ["__tests__"]) ++ [x]).
  { intros x. rewrite <- app_assoc. reflexivity. }
  rewrite map_app, map_app in Hc.
  apply in_app_or in Hc as [Hc | Hc]; [|apply in_app_or in Hc as [Hc | Hc]].
  - cbn [map In] in Hc.
    destruct Hc as [<- | [<- | [<- | [<- | []]]]]; apply V; auto.
  - cbn [map In] in Hc. destruct Hc as [<- | [<- | [<- | []]]];
      rewrite W; apply V; auto.
  - destruct (Str.mem "src" dir); [|contradiction].
    cbn [map In] in Hc. destruct Hc as [<- | [<- | []]]; apply V; auto.
Qed.

(** A candidate of a path without the code point 0 holds none either. *)
Lemma candidate_nul_free (fp c : string) :
  is_impl_file fp = true -> In c (find_matching_tests fp) ->
  existsb Str.has_nul (Path.tail (Path.of_string fp)) = false ->
  existsb Str.has_nul (Path.tail (Path.of_string c)) = false.
Proof.
  intros Hi Hc Hn. apply existsb_false_Forall.
  apply existsb_false_Forall in Hn.
  apply (candidate_tail_forall _ fp c Hi Hc Hn); try reflexivity.
  assert (N : Str.has_nul (Path.name (Path.of_string fp)) = false).
  { apply (Forall_last (fun x => Str.has_nul x = false));
      [exact Hn | apply impl_named, Hi]. }
  rewrite <- stem_suffix, has_nul_app in N.
  apply orb_false_iff in N as [N1 N2].
  intros i Hin. rewrite !has_nul_app, N1, N2.
  simpl in Hin. destruct Hin as [<- | [<- | [<- | [<- | []]]]]; reflexivity.
Qed.

(** Where resolution keeps file names, a path without the code point 0
    whose last component is not ".." resolves, and keeps its name. *)
Lemma name_preserving_resolves (env : Env) (s : string)
  (pre : list string) (x : string) :
  name_preserving env ->
  Path.tail (Path.of_string s) = pre ++ [x] -> x <> ".." ->
  existsb Str.has_nul (Path.tail (Path.of_string s)) = false ->
  exists n, normalize_path env s = Ok n /\
            Path.name (Path.of_string n) = x.
Proof.
  intros [Hcwd Hk] Ht Hx Hn. unfold normalize_path. rewrite Hn.
  pose proof (of_string_tail s) as Hs. rewrite Ht in *.
  assert (R : exists pre',
            realpath env
              (if Str.is_empty (Path.root (Path.of_string s))
               then cwd env ++ pre ++ [x] else pre ++ [x]) =
            Ok (pre' ++ [x]) /\ Forall simple pre').
  { destruct (Str.is_empty (Path.root (Path.of_string s))).
    - rewrite app_assoc. apply Hk; [|exact Hx].
      rewrite <- app_assoc. apply Forall_app. split; assumption.
    - apply Hk; assumption. }
  destruct R as [pre' [-> Hp]]. cbn [bind]. eexists. split; [reflexivity|].
  apply name_of_text; [right; left; reflexivity | exact Hp|].
  apply Forall_app in Hs as [_ Hlast]. inversion Hlast; assumption.
Qed.

Lemma tail_snoc (l : list string) :
  l <> [] -> l = removelast l ++ [last l EmptyString].
Proof. intros H. apply app_removelast_last, H. Qed.

Lemma impl_resolves (env : Env) (fp : string) :
  name_preserving env -> is_impl_file fp = true ->
  existsb Str.has_nul (Path.tail (Path.of_string fp)) = false ->
  resolvable env fp = true.
Proof.
  intros K Hi Hn.
  destruct (name_preserving_resolves env fp
              (removelast (Path.tail (Path.of_string fp)))
              (Path.name (Path.of_string fp)) K) as [n [E _]].
  - apply tail_snoc, impl_named, Hi.
  - apply impl_name_not_dotdot, Hi.
  - exact Hn.
  - unfold resolvable. rewrite E. reflexivity.
Qed.

(** On such a file system normalisation keeps the file name of a
    candidate. *)
Lemma candidate_normalized_name (env : Env) (fp c : string) :
  name_preserving env -> is_impl_file fp = true ->
  In c (find_matching_tests fp) ->
  existsb Str.has_nul (Path.tail (Path.of_string fp)) = false ->
  exists n, normalize_path env c = Ok n /\
            Path.name (Path.of_string n) = Path.name (Path.of_string c).
Proof.
  intros K Hi Hc Hn.
  destruct (impl_parts_simple fp Hi) as [Hr _].
  destruct (candidate_shape fp c Hi Hc) as [pre [x [E [Hs [Hx _]]]]].
  assert (T : Path.of_string c =
              Path.mk (Path.root (Path.of_string fp)) (pre ++ [x])).
  { rewrite E. apply of_string_to_string; assumption. }
  destruct (name_preserving_resolves env c pre x K) as [n [En Nn]].
  - rewrite T. reflexivity.
  - exact Hx.
  - apply (candidate_nul_free fp c Hi Hc Hn).
  - exists n. split; [exact En|]. rewrite Nn, T. unfold Path.name.
    cbn [Path.tail]. rewrite last_snoc. reflexivity.
Qed.

Lemma candidates_resolve (env : Env) (fp : string) :
  name_preserving env -> is_impl_file fp = true ->
  existsb Str.has_nul (Path.tail (Path.of_string fp)) = false ->
  forallb (resolvable env) (find_matching_tests fp) = true.
Proof.
  intros K Hi Hn. apply forallb_forall. intros c Hc.
  destruct (candidate_normalized_name env fp c K Hi Hc Hn) as [n [E _]].
  unfold resolvable. rewrite E. reflexivity.
Qed.

(** There the exact test of line 170 adds nothing to the file-name test of
    line 175. *)
Lemma candidate_matches_by_name (env : Env) (fp c : string) (l : list string) :
  name_preserving env -> is_impl_file fp = true ->
  In c (find_matching_tests fp) ->
  existsb Str.has_nul (Path.tail (Path.of_string fp)) = false ->
  candidate_matches env l c = existsb (same_name c) l.
Proof.
  intros Hk Hi Hc Hn. unfold candidate_matches.
  destruct (candidate_normalized_name env fp c Hk Hi Hc Hn) as [n [-> N]].
  destruct (Str.mem n l) eqn:M; [|reflexivity].
  cbn [orb]. symmetry. apply existsb_exists.
  exists n. split; [apply mem_In, M|].
  unfold same_name. rewrite N. apply String.eqb_refl.
Qed.

(** A file system without symbolic links keeps file names. *)
Lemma lexical_name_preserving (dir : list string) :
  Forall simple dir -> name_preserving (env_of dir Cwd.plain).
Proof.
  intros Hd. split; [exact Hd|]. intros abs x Hs Hx.
  cbn [realpath env_of]. unfold Cwd.plain.
  exists (Cwd.lexical abs). apply Forall_app in Hs as [Ha _]. split.
  - unfold Cwd.lexical. rewrite fold_left_app. cbn [fold_left].
    unfold Cwd.push at 1. apply String.eqb_neq in Hx. rewrite Hx. reflexivity.
  - apply fold_push_simple; [constructor | exact Ha].
Qed.

(** The decision for an implementation write on such a file system. *)
Lemma main_impl_by_name (env : Env) (d : json) (fp : string)
  (f : StoreFile) (l : list string) :
  name_preserving env ->
  file_path_of d = Ok (JStr fp) -> is_impl_file fp = true ->
  existsb Str.has_nul (Path.tail (Path.of_string fp)) = false ->
  recorded f = Some l ->
  main env (Json d) f =
  reply (if existsb (fun c => existsb (same_name c) l) (find_matching_tests fp)
         then allow
         else block (block_reason
                       (suggested_test fp (find_matching_tests fp)))) f.
Proof.
  intros K Hd Hi Hn Hl.
  rewrite (main_impl_recorded env d fp f l Hd Hi Hl
             (impl_resolves env fp K Hi Hn) (candidates_resolve env fp K Hi Hn)).
  replace (existsb (candidate_matches env l) (find_matching_tests fp))
    with (existsb (fun c => existsb (same_name c) l) (find_matching_tests fp));
    [reflexivity|].
  symmetry. apply existsb_ext_in. intros c Hc.
  apply (candidate_matches_by_name env fp c l K Hi Hc Hn).
Qed.

(** X12.  On file systems that keep file names, as those without symbolic
    links do, the outcome of an implementation write for a path without
    the code point 0 on a well-shaped store does not depend on the
    environment, the working directory included: it is Allow exactly when
    some recorded path has the lower-cased file name of some candidate. *)
Theorem impl_decision_independent_of_cwd (env1 env2 : Env) (d : json)
  (fp : string) (f : StoreFile) (l : list string) :
  name_preserving env1 -> name_preserving env2 ->
  file_path_of d = Ok (JStr fp) -> is_impl_file fp = true ->
  existsb Str.has_nul (Path.tail (Path.of_string fp)) = false ->
  recorded f = Some l ->
  main env1 (Json d) f = main env2 (Json d) f /\
  (main env1 (Json d) f = reply allow f <->
   exists c m,
     In c (find_matching_tests fp) /\ In m l /\
     Str.lower (Path.name (Path.of_string m)) =
     Str.lower (Path.name (Path.of_string c))).
Proof.
  intros K1 K2 Hd Hi Hn Hl.
  rewrite (main_impl_by_name env1 d fp f l K1 Hd Hi Hn Hl),
          (main_impl_by_name env2 d fp f l K2 Hd Hi Hn Hl).
  split; [reflexivity|].
  destruct (existsb (fun c => existsb (same_name c) l) (find_matching_tests fp))
    eqn:X.
  - split; [|reflexivity]. intros _.
    apply existsb_exists in X as [c [Hc X]].
    apply existsb_exists in X as [m [Hm X]].
    unfold same_name in X. apply String.eqb_eq in X. eauto.
  - split.
    + intros H. injection H as H. discriminate H.
    + intros [c [m [Hc [Hm N]]]]. exfalso.
      pose proof (proj1 (existsb_false_iff _ _) X c Hc) as Xc. cbv beta in Xc.
      pose proof (proj1 (existsb_false_iff _ _) Xc m Hm) as Xm.
      unfold same_name in Xm. rewrite N, String.eqb_refl in Xm.
      discriminate Xm.
Qed.

Lemma impl_decision_independent_of_cwd_witness :
  let elsewhere := env_of ["srv"; "ci"] Cwd.plain in
  let f := store (main work (Json (request "src/utils/math.test.ts")) Absent) in
  main work (Json (request "src/utils/math.ts")) f =
  main elsewhere (Json (request "src/utils/math.ts")) f.
Proof.
  intros elsewhere f.
  assert (K1 : name_preserving work).
  { apply lexical_name_preserving.
    constructor; [split; reflexivity | constructor]. }
  assert (K2 : name_preserving elsewhere).
  { apply lexical_name_preserving.
    constructor; [split; reflexivity|].
    constructor; [split; reflexivity | constructor]. }
  exact (proj1 (impl_decision_independent_of_cwd work elsewhere
                  (request "src/utils/math.ts") "src/utils/math.ts" f
                  ["/work/src/utils/math.test.ts"]
                  K1 K2 eq_refl eq_refl eq_refl eq_refl)).
Defined.

(** ** The store document over a session *)



(** One invocation on a well-shaped store that can be written. *)
Lemma main_recorded_exact (inv : Env * Stdin) (f : StoreFile)
  (l : list string) :
  recorded f = Some l -> writable f = true ->
  recorded (store (main (fst inv) (snd inv) f)) =
  Some match requested_test inv with
       | Some np => record_path l np
       | None => l
       end /\
  writable (store (main (fst inv) (snd inv) f)) = true.
Proof.
  intros Hl W. destruct inv as [env stdin]. cbn [fst snd].
  destruct (requested_test (env, stdin)) as [np|] eqn:Q.
  - unfold requested_test in Q. cbn [fst snd] in Q.
    destruct stdin as [| |d]; try discriminate Q.
    destruct (file_path_of d) as [[| | |fp| |]|e] eqn:Hd; try discriminate Q.
    destruct (is_test_file fp) eqn:Ht; [|discriminate Q].
    destruct (normalize_path env fp) as [n|e] eqn:Hn; [|discriminate Q].
    injection Q as ->.
    destruct (main_test_recorded env d fp f l np Hd Ht Hl W Hn)
      as [f' [-> [R [W' _]]]].
    cbn [store reply]. auto.
  - destruct (main_recorded_step env stdin f l Hl)
      as [H | [np [Q' _]]]; [|congruence].
    split; [exact H|].
    destruct (main_store env stdin f) as [-> | [d [fp [state [np [st H']]]]]];
      [exact W|].
    destruct H' as [_ [_ [_ [_ [_ [_ [_ ->]]]]]]]. reflexivity.
Qed.

Lemma session_store_recorded (invocations : list (Env * Stdin))
  (f : StoreFile) (l : list string) :
  recorded f = Some l -> writable f = true ->
  recorded (run_all invocations f) =
  Some (fold_left record_path (requested_tests invocations) l).
Proof.
  revert f l. induction invocations as [|inv rest IH]; intros f l Hl W.
  - exact Hl.
  - unfold run_all. cbn [fold_left requested_tests]. fold (run_all rest).
    destruct (main_recorded_exact inv f l Hl W) as [H W'].
    destruct (requested_test inv) as [np|]; apply (IH _ _ H W').
Qed.

(** On a store that cannot be written a session leaves the store as it
    was. *)
Lemma session_store_unwritable (invocations : list (Env * Stdin))
  (f : StoreFile) :
  writable f = false -> run_all invocations f = f.
Proof.
  intros W. induction invocations as [|[env stdin] rest IH]; [reflexivity|].
  unfold run_all. cbn [fold_left fst snd]. fold (run_all rest).
  destruct (main_store env stdin f)
    as [-> | [d [fp [state [np [st [_ [_ [_ [_ [_ [_ [W' _]]]]]]]]]]]]];
    [exact IH | congruence].
Qed.



(** ** Spellings of one path *)

Lemma main_request (env : Env) (s : string) (f : StoreFile) :
  main env (Json (request s)) f =
  if Str.is_empty s then reply allow f
  else
    match load_state f with
    | Raise e => crash e f
    | Ok state =>
        match normalize_path env s with
        | Raise e => crash e f
        | Ok np =>
            if is_test_file s then write_test state np f
            else if negb (is_impl_file s) then reply allow f
            else match check_impl env state s with
                 | Raise e => crash e f
                 | Ok response => reply response f
                 end
        end
    end.
Proof.
  unfold main.
  change (file_path_of (request s)) with (Ok (JStr s)).
  destruct s as [|c r]; reflexivity.
Qed.

Lemma check_impl_parsed (env : Env) (state : json) (s1 s2 : string) :
  Path.of_string s1 = Path.of_string s2 ->
  check_impl env state s1 = check_impl env state s2.
Proof.
  intros H.
  assert (E : find_matching_tests s1 = find_matching_tests s2).
  { unfold find_matching_tests. rewrite H. reflexivity. }
  unfold check_impl. rewrite E.
  destruct (find_matching_tests_first s2) as [rest ->]. reflexivity.
Qed.

(** X15.  The enforcer sees a file path that is not empty only through
    [Path(file_path)]: two spellings that pathlib parses alike (doubled
    slashes, "." segments, a trailing slash), both empty or both not, get
    the same classification, the same candidates, the same normalized
    path and, on every store, the same outcome.  The empty path is set
    apart by line 141: it parses like "." but is answered before the
    store is loaded. *)
Theorem outcome_depends_on_parsed_path (env : Env) (s1 s2 : string)
  (f : StoreFile) :
  Path.of_string s1 = Path.of_string s2 ->
  (s1 = EmptyString <-> s2 = EmptyString) ->
  is_test_file s1 = is_test_file s2 /\
  is_impl_file s1 = is_impl_file s2 /\
  find_matching_tests s1 = find_matching_tests s2 /\
  normalize_path env s1 = normalize_path env s2 /\
  main env (Json (request s1)) f = main env (Json (request s2)) f.
Proof.
  intros H He.
  assert (T : is_test_file s1 = is_test_file s2).
  { unfold is_test_file. rewrite H. reflexivity. }
  assert (I : is_impl_file s1 = is_impl_file s2).
  { unfold is_impl_file. rewrite H, T. reflexivity. }
  assert (N : normalize_path env s1 = normalize_path env s2).
  { unfold normalize_path. rewrite H. reflexivity. }
  assert (Z : Str.is_empty s1 = Str.is_empty s2).
  { destruct s1, s2; try reflexivity.
    - destruct He as [He _]. discriminate (He eq_refl).
    - destruct He as [_ He]. discriminate (He eq_refl). }
  split; [exact T|]. split; [exact I|]. split.
  { unfold find_matching_tests. rewrite H. reflexivity. }
  split; [exact N|].
  rewrite !main_request, Z, T, I, N.
  destruct (Str.is_empty s2); [reflexivity|].
  destruct (load_state f) as [state|e]; [|reflexivity].
  rewrite (check_impl_parsed env state s1 s2 H). reflexivity.
Qed.

Lemma outcome_depends_on_parsed_path_witness :
  main work (Json (request "src//utils/./math.ts")) Absent =
  main work (Json (request "src/utils/math.ts")) Absent.
Proof.
  apply (outcome_depends_on_parsed_path work "src//utils/./math.ts"
           "src/utils/math.ts" Absent eq_refl).
  split; discriminate.
Defined.

Example empty_path_is_answered_before_the_load :
  Path.of_string EmptyString = Path.of_string "." /\
  main work (Json (request EmptyString)) (Broken NotText) =
    reply allow (Broken NotText) /\
  main work (Json (request ".")) (Broken NotText) =
    crash UnicodeDecodeError (Broken NotText).
Proof. repeat split. Qed.

(** ** Test writes on stores of any shape *)

(** X16.  What a test write does, once the store is loaded and the path
    resolved, is decided by what the loaded state binds to
    [test_files_modified].  A list, with elements of any kind: Allow, and
    the path is appended unless an equal str is listed; when the store
    cannot be written the append ends with [OSError].  No such key:
    [KeyError].  A state that is no object, or a value that is null, a
    boolean or a number: [TypeError].  A str or an object: Allow without
    saving when the normalized path is a substring or a key of it,
    [AttributeError] from [.append] otherwise. *)
Theorem test_write_on_any_store (env : Env) (d : json) (fp : string)
  (f : StoreFile) (state : json) (np : string) :
  file_path_of d = Ok (JStr fp) -> is_test_file fp = true ->
  load_state f = Ok state -> normalize_path env fp = Ok np ->
  let o := main env (Json d) f in
  match state with
  | JObj kvs =>
      match Py.lookup KEY kvs with
      | None => o = crash KeyError f
      | Some (JArr elems) =>
          (existsb (Py.eq_str np) elems = true -> o = reply allow f) /\
          (existsb (Py.eq_str np) elems = false ->
           o = if writable f
               then reply allow
                      (Doc (JObj (Py.rebind KEY (JArr (elems ++ [JStr np])) kvs)))
               else crash OSError f)
      | Some (JStr t) =>
          o = if Str.contains np t then reply allow f
              else crash AttributeError f
      | Some (JObj members) =>
          o = if existsb (fun kv => String.eqb np (fst kv)) members
              then reply allow f else crash AttributeError f
      | Some _ => o = crash TypeError f
      end
  | _ => o = crash TypeError f
  end.
Proof.
  intros Hd Ht Hs Hn o. unfold o.
  rewrite (main_test env d fp f state np Hd Ht Hs Hn).
  unfold write_test, record_test.
  destruct state as [| | | | |kvs]; try reflexivity.
  cbn [Py.getitem bind].
  destruct (Py.lookup KEY kvs) as [[| | |t|elems|members]|];
    cbn [Py.contains bind]; try reflexivity.
  - destruct (Str.contains np t); reflexivity.
  - destruct (existsb (Py.eq_str np) elems); cbn [negb Py.append bind].
    + split; intros H; [reflexivity | discriminate H].
    + split; intros H; [discriminate H|].
      unfold save_state. destruct (writable f); reflexivity.
  - destruct (existsb _ members); reflexivity.
Qed.

Lemma test_write_on_any_store_witness :
  let f := Doc (JObj [(KEY, JArr [JNum 7; JNull; JStr "/work/src/a.test.ts"])]) in
  main work (Json (request "src/a.test.ts")) f = reply allow f.
Proof.
  intros f.
  pose proof (test_write_on_any_store work (request "src/a.test.ts")
                "src/a.test.ts" f
                (JObj [(KEY, JArr [JNum 7; JNull; JStr "/work/src/a.test.ts"])])
                "/work/src/a.test.ts" eq_refl eq_refl eq_refl eq_refl) as H.
  cbv zeta in H.
  change (Py.lookup KEY
            [(KEY, JArr [JNum 7; JNull; JStr "/work/src/a.test.ts"])])
    with (Some (JArr [JNum 7; JNull; JStr "/work/src/a.test.ts"])) in H.
  cbv iota beta in H.
  destruct H as [H _]. apply H. reflexivity.
Defined.

(** ** The order of test writes *)

Lemma requested_tests_In (invocations : list (Env * Stdin)) (np : string) :
  In np (requested_tests invocations) <->
  exists inv, In inv invocations /\ requested_test inv = Some np.
Proof.
  induction invocations as [|inv rest IH]; cbn [requested_tests].
  - split; [intros [] | intros [inv [[] _]]].
  - destruct (requested_test inv) as [p|] eqn:R.
    + simpl. rewrite IH. split.
      * intros [<- | [i [Hi Ri]]]; [exists inv; auto | exists i; auto].
      * intros [i [[<- | Hi] Ri]].
        { left. congruence. }
        { right. eauto. }
    + rewrite IH. split.
      * intros [i [Hi Ri]]. exists i. simpl. auto.
      * intros [i [[<- | Hi] Ri]]; [congruence | eauto].
Qed.

(** What an implementation write prints depends on the recorded paths as
    a set only. *)
Lemma impl_stdout_same_set (env : Env) (d : json) (fp : string)
  (f1 f2 : StoreFile) (l1 l2 : list string) :
  file_path_of d = Ok (JStr fp) -> is_impl_file fp = true ->
  recorded f1 = Some l1 -> recorded f2 = Some l2 ->
  (forall x, In x l1 <-> In x l2) ->
  stdout (main env (Json d) f1) = stdout (main env (Json d) f2).
Proof.
  intros Hd Hi H1 H2 S.
  destruct (recorded_inv f1 l1 H1) as [kvs1 [Hs1 L1]].
  destruct (recorded_inv f2 l2 H2) as [kvs2 [Hs2 L2]].
  destruct (impl_inv _ Hi) as [_ Ht].
  unfold main. rewrite Hd.
  destruct fp as [|c r]; [discriminate Hi|].
  cbn [Py.truthy Str.is_empty negb]. rewrite Hs1, Hs2.
  destruct (normalize_path env (String c r)) as [np|e]; [|reflexivity].
  rewrite Ht, Hi. cbn [negb].
  rewrite (check_impl_recorded env kvs1 l1 _ L1),
          (check_impl_recorded env kvs2 l2 _ L2),
          (scan_same_set env l1 l2 _ S).
  destruct (scan env l2 _) as [[|]|e]; reflexivity.
Qed.

(** X17.  The order and the repetition of the invocations of a session do
    not matter for what follows: two sequences with the same invocations
    leave, on a well-shaped store, the same set of recorded paths, and
    every later implementation write prints the same decision after
    either. *)
Theorem order_of_writes_does_not_matter (a b : list (Env * Stdin))
  (f : StoreFile) (l : list string) :
  recorded f = Some l ->
  (forall inv, In inv a <-> In inv b) ->
  exists la lb,
    recorded (run_all a f) = Some la /\ recorded (run_all b f) = Some lb /\
    (forall x, In x la <-> In x lb) /\
    forall env d fp,
      file_path_of d = Ok (JStr fp) -> is_impl_file fp = true ->
      stdout (main env (Json d) (run_all a f)) =
      stdout (main env (Json d) (run_all b f)).
Proof.
  intros Hl Hab.
  assert (R : exists la lb,
            recorded (run_all a f) = Some la /\
            recorded (run_all b f) = Some lb /\
            forall x, In x la <-> In x lb).
  { destruct (writable f) eqn:W.
    - exists (fold_left record_path (requested_tests a) l),
             (fold_left record_path (requested_tests b) l).
      split; [apply session_store_recorded; assumption|].
      split; [apply session_store_recorded; assumption|].
      intros x. rewrite !fold_record_In, !requested_tests_In.
      split; (intros [H | [inv [Hi R]]]; [left; exact H|]);
        right; exists inv; split; auto; apply Hab; exact Hi.
    - exists l, l. rewrite !(session_store_unwritable _ f W).
      split; [exact Hl|]. split; [exact Hl|]. reflexivity. }
  destruct R as [la [lb [Ha [Hb S]]]].
  exists la, lb. split; [exact Ha|]. split; [exact Hb|].
  split; [exact S|].
  intros env d fp Hd Hi.
  apply (impl_stdout_same_set env d fp _ _ la lb Hd Hi Ha Hb S).
Qed.

Lemma order_of_writes_does_not_matter_witness :
  let a := [(work, Json (request "src/a.test.ts"));
            (work, Json (request "src/b.spec.ts"))] in
  let b := [(work, Json (request "src/b.spec.ts"));
            (work, Json (request "src/a.test.ts"));
            (work, Json (request "src/b.spec.ts"))] in
  recorded (run_all a Absent) <> recorded (run_all b Absent) /\
  stdout (main work (Json (request "src/a.ts")) (run_all a Absent)) =
  stdout (main work (Json (request "src/a.ts")) (run_all b Absent)).
Proof.
  intros a b. split; [discriminate|].
  assert (Hab : forall inv, In inv a <-> In inv b).
  { intros inv. simpl. tauto. }
  destruct (order_of_writes_does_not_matter a b Absent [] eq_refl Hab)
    as [la [lb [_ [_ [_ H]]]]].
  exact (H work (request "src/a.ts") "src/a.ts" eq_refl eq_refl).
Defined.

(** ** The file names the decision looks at *)

(** X18.  On a file system that keeps file names the decision for an
    implementation write for a path without the code point 0 looks at
    five file names only.  With stem [s] and suffix [x], the write is
    allowed exactly when some recorded path has, case being ignored, one
    of the names [s.test x], [s.spec x], [s_test x], [s_spec x], or the
    name [s x] of the implementation file itself; the directories of the
    recorded paths are never consulted. *)
Theorem impl_allowed_iff_one_of_five_names (env : Env) (d : json)
  (fp : string) (f : StoreFile) (l : list string) :
  name_preserving env ->
  file_path_of d = Ok (JStr fp) -> is_impl_file fp = true ->
  existsb Str.has_nul (Path.tail (Path.of_string fp)) = false ->
  recorded f = Some l ->
  let p := Path.of_string fp in
  let file := fun i => (Path.stem p ++ i ++ Path.suffix p)%string in
  main env (Json d) f = reply allow f <->
  exists m n,
    In m l /\
    In n [file ".test"; file ".spec"; file "_test"; file "_spec"; Path.name p] /\
    Str.lower (Path.name (Path.of_string m)) = Str.lower n.
Proof.
  intros K Hd Hi Hn Hl p file.
  pose proof (candidate_names fp Hi) as N. cbv zeta in N. fold p in N.
  fold (file ".test") (file ".spec") (file "_test") (file "_spec") in N.
  rewrite (main_impl_by_name env d fp f l K Hd Hi Hn Hl).
  assert (Names : forall n,
            In n (map (fun c => Path.name (Path.of_string c))
                      (find_matching_tests fp)) <->
            In n [file ".test"; file ".spec"; file "_test"; file "_spec";
                  Path.name p]).
  { intros n. rewrite N.
    destruct (Str.mem "src" (removelast (Path.tail p))); simpl; tauto. }
  destruct (existsb (fun c => existsb (same_name c) l) (find_matching_tests fp))
    eqn:X.
  - split; [|reflexivity]. intros _.
    apply existsb_exists in X as [c [Hc X]].
    apply existsb_exists in X as [m [Hm X]].
    unfold same_name in X. apply String.eqb_eq in X.
    exists m, (Path.name (Path.of_string c)). split; [exact Hm|].
    split; [|exact X]. apply Names, in_map_iff. eauto.
  - split.
    + intros H. injection H as H. discriminate H.
    + intros [m [n [Hm [Hin Eq]]]]. exfalso.
      apply Names, in_map_iff in Hin as [c [<- Hc]].
      pose proof (proj1 (existsb_false_iff _ _) X c Hc) as Xc. cbv beta in Xc.
      pose proof (proj1 (existsb_false_iff _ _) Xc m Hm) as Xm.
      unfold same_name in Xm. rewrite Eq, String.eqb_refl in Xm.
      discriminate Xm.
Qed.

(** A recorded test that has the very name of the implementation file,
    in an unrelated directory, allows the write. *)
Lemma impl_allowed_iff_one_of_five_names_witness :
  let f := Doc (JObj [(KEY, JArr [JStr "/srv/other/tests/Math.ts"])]) in
  main work (Json (request "src/utils/math.ts")) f = reply allow f.
Proof.
  intros f.
  assert (K : name_preserving work).
  { apply lexical_name_preserving.
    constructor; [split; reflexivity | constructor]. }
  apply (impl_allowed_iff_one_of_five_names work (request "src/utils/math.ts")
           "src/utils/math.ts" f ["/srv/other/tests/Math.ts"]
           K eq_refl eq_refl eq_refl eq_refl).
  exists "/srv/other/tests/Math.ts", "math.ts".
  split; [left; reflexivity|]. split; [simpl; auto 10 | reflexivity].
Defined.

(** ** storybook_validator.py *)





(** ** The error excerpts *)

(** ** The error excerpts *)

Lemma split_lacks (sep : ascii) (s : string) :
  Forall (fun c => Excerpt.lacks sep c = true) (Str.split sep s).
Proof.
  induction s as [|c r IH]; simpl.
  - constructor; [reflexivity | constructor].
  - destruct (Ascii.eqb c sep) eqn:E.
    + constructor; [reflexivity | exact IH].
    + destruct (Str.split sep r) as [|h t].
      * constructor; [simpl; rewrite E; reflexivity | constructor].
      * inversion IH; subst.
        constructor; [simpl; rewrite E; assumption | assumption].
Qed.

Lemma count_app (ch : ascii) (a b : string) :
  Excerpt.count ch (a ++ b) = Excerpt.count ch a + Excerpt.count ch b.
Proof. induction a as [|c r IH]; simpl; [|rewrite IH]; lia. Qed.

Lemma lacks_count (ch : ascii) (s : string) :
  Excerpt.lacks ch s = true -> Excerpt.count ch s = 0.
Proof.
  induction s as [|c r IH]; simpl; [reflexivity|]. intros H.
  apply andb_true_iff in H as [Hc Hr]. apply negb_true_iff in Hc.
  rewrite Hc, (IH Hr). reflexivity.
Qed.

(** Lines joined by newlines hold one newline less than there are lines. *)
Lemma count_join (l : list string) :
  Forall (fun c => Excerpt.lacks Excerpt.newline c = true) l ->
  Excerpt.count Excerpt.newline (Str.join nl l) = pred (length l).
Proof.
  induction 1 as [|x l Hx Hl IH]; [reflexivity|].
  destruct l as [|y l'].
  - simpl. apply lacks_count, Hx.
  - change (Str.join nl (x :: y :: l'))
      with (x ++ nl ++ Str.join nl (y :: l'))%string.
    rewrite !count_app, IH, (lacks_count _ _ Hx). reflexivity.
Qed.

Lemma Forall_firstn {A} (P : A -> Prop) (n : nat) (l : list A) :
  Forall P l -> Forall P (firstn n l).
Proof.
  intros H. revert n. induction H as [|x l Hx Hl IH]; intros [|n]; simpl;
    constructor; auto.
Qed.

Lemma Forall_filter {A} (P : A -> Prop) (p : A -> bool) (l : list A) :
  Forall P l -> Forall P (filter p l).
Proof.
  induction 1 as [|x l Hx Hl IH]; simpl; [constructor|].
  destruct (p x); [constructor; assumption | assumption].
Qed.

Lemma Forall_tsc_relevant (P : string -> Prop) (file_name file_path : string)
  (b : bool) (lines : list string) :
  Forall P lines -> Forall P (Excerpt.tsc_relevant file_name file_path b lines).
Proof.
  intros H. revert b. induction H as [|x l Hx Hl IH]; intros b;
    cbn [Excerpt.tsc_relevant]; [constructor|].
  destruct (Str.contains file_name x || Str.contains file_path x);
    [constructor; auto|].
  destruct (b && (Str.startswith " " x || Str.is_empty (Excerpt.strip x)));
    [constructor; auto | auto].
Qed.

Lemma take_length (n : nat) (s : string) : String.length (Str.take n s) <= n.
Proof.
  revert s. induction n as [|n IH]; intros [|c r]; simpl; try lia.
  specialize (IH r). lia.
Qed.

(** An excerpt of at most ten of the given lines has at most nine
    newlines. *)
Lemma excerpt_lines (l : list string) :
  Forall (fun c => Excerpt.lacks Excerpt.newline c = true) l ->
  Excerpt.count Excerpt.newline (Str.join nl (firstn 10 l)) <= 9.
Proof.
  intros H. rewrite count_join by (apply Forall_firstn, H).
  pose proof (firstn_le_length 10 l). lia.
Qed.

(** X20.  The excerpt that the TypeScript validator puts into its Block
    reason is bounded, whatever the compiler wrote: it holds at most ten
    lines, or, when no line names the file and none holds "error TS", at
    most the first 500 characters of the output. *)
Theorem tsc_excerpt_is_bounded (output file_path : string) :
  Excerpt.count Excerpt.newline
    (Excerpt.tsc_extract_errors output file_path) <= 9 \/
  String.length (Excerpt.tsc_extract_errors output file_path) <= 500.
Proof.
  unfold Excerpt.tsc_extract_errors.
  destruct (Str.is_empty output); [left; simpl; lia|].
  pose proof (split_lacks Excerpt.newline output) as L.
  set (lines := Str.split Excerpt.newline output) in *.
  pose proof (Forall_tsc_relevant _
                (Path.name (Path.of_string file_path)) file_path false
                lines L) as R.
  destruct (Excerpt.tsc_relevant _ file_path false lines) as [|x xs].
  - pose proof (Forall_firstn _ 5 _
                  (Forall_filter _ (Str.contains "error TS") _ L)) as F.
    destruct (firstn 5 (filter (Str.contains "error TS") lines)) as [|y ys].
    + right. apply take_length.
    + left. apply excerpt_lines, F.
  - left. apply excerpt_lines, R.
Qed.

(** X21.  The excerpt that the oxlint validator puts into its Block
    reason is bounded in the same way: at most ten lines, or, when no
    line is picked, at most the first 500 characters of the output. *)
Theorem oxlint_excerpt_is_bounded (output file_path : string) :
  Excerpt.count Excerpt.newline
    (Excerpt.oxlint_extract_errors output file_path) <= 9 \/
  String.length (Excerpt.oxlint_extract_errors output file_path) <= 500.
Proof.
  unfold Excerpt.oxlint_extract_errors.
  destruct (Str.is_empty output); [left; simpl; lia|].
  pose proof (Forall_filter _ Excerpt.oxlint_relevant _
                (split_lacks Excerpt.newline output)) as F.
  destruct (filter Excerpt.oxlint_relevant
              (Str.split Excerpt.newline output)) as [|x xs].
  - right. apply take_length.
  - left. apply excerpt_lines, F.
Qed.
